(** * Persisted palette state of BEE2: parsing, export and legacy migration

    A shallow embedding of [src/config/palette.py] (class [PaletteState]) with
    the parts of the Python runtime and of the libraries it calls into
    ([uuid.UUID], [srctools.Property], [srctools.dmx]) that the class uses.

    Conventions
    - a Python call that may raise is a function into [Py.result];
      [try ... except] is [Py.try_except];
    - a Python [str] is a [string]: a sequence of 8-bit code points (the
      Latin-1 range); a Python [bytes] is a [list byte];
    - a Python [int] is a [Z];
    - a [set]/[frozenset] of identifiers is a [gset UUID], a [dict] keyed by
      strings is a [gmap string _]. *)

From Stdlib Require Import ZArith Ascii String List Lia.
From Stdlib.Strings Require Import Byte.
From stdpp Require Import base decidable countable gmap strings list.

Local Open Scope string_scope.
Local Open Scope Z_scope.

Set Warnings "-register-all,-clear-no-such-hyp".

(** ** Python exceptions and results *)

Module Py.

(** The exception classes that the modelled code can raise.  [NoKeyError] is
    srctools' subclass of [LookupError]; [KeyError] is the builtin one;
    [StructError] is [struct.error], a direct subclass of [Exception] that
    the packing conversions of [srctools.dmx] raise. *)
Inductive exn : Set :=
| AssertionError
| ValueError
| KeyError
| NoKeyError
| AttributeError
| StructError.

Inductive result (A : Type) : Type :=
| Ok (a : A)
| Raise (e : exn).
Global Arguments Ok {A} a.
Global Arguments Raise {A} e.

Definition bind {A B} (m : result A) (k : A -> result B) : result B :=
  match m with
  | Ok a => k a
  | Raise e => Raise e
  end.

(** [isinstance(e, LookupError)] *)
Definition is_LookupError (e : exn) : bool :=
  match e with
  | KeyError | NoKeyError => true
  | _ => false
  end.

Definition is_ValueError (e : exn) : bool :=
  match e with
  | ValueError => true
  | _ => false
  end.

Definition is_KeyError (e : exn) : bool :=
  match e with
  | KeyError => true
  | _ => false
  end.

(** [try: body  except <classes>: handler], without [else] clause. *)
Definition try_except {A} (body : result A) (catches : exn -> bool)
    (handler : result A) : result A :=
  match body with
  | Ok a => Ok a
  | Raise e => if catches e then handler else Raise e
  end.

(** Evaluating a comprehension [f(x) for x in xs]: elements are produced
    left to right, the first exception aborts the whole comprehension. *)
Fixpoint comprehension {A B} (f : A -> result B) (xs : list A) : result (list B) :=
  match xs with
  | [] => Ok []
  | x :: xs' =>
      bind (f x) (fun y => bind (comprehension f xs') (fun ys => Ok (y :: ys)))
  end.

End Py.

Import Py.

(** [result] is a monad; [x ← m; k] sequences two calls. *)
#[global] Instance result_bind : MBind result := fun A B k m => Py.bind m k.
#[global] Instance result_ret : MRet result := fun A a => Ok a.

(** ** Python string operations *)

Module Str.

Definition ord (c : ascii) : Z := Z.of_N (N_of_ascii c).

Definition between (lo hi : Z) (c : ascii) : bool :=
  (lo <=? ord c) && (ord c <=? hi).

Definition is_char (c d : ascii) : bool := Ascii.eqb c d.

(** [str.casefold] on the 8-bit model: the ASCII capitals are lowered.
    (For a name compared against one of the ASCII keys used in this file
    this agrees with Python on the whole Latin-1 range.) *)
Definition casefold_char (c : ascii) : ascii :=
  if between 65 90 c then ascii_of_N (N_of_ascii c + 32) else c.

Fixpoint casefold (s : string) : string :=
  match s with
  | EmptyString => EmptyString
  | String c s' => String (casefold_char c) (casefold s')
  end.

(** [s.replace(old, '')] for a non-empty [old]: occurrences are removed
    left to right, without overlap.  [skip] counts the characters of an
    occurrence that are still to be dropped. *)
Fixpoint remove_from (old : string) (skip : nat) (s : string) : string :=
  match s with
  | EmptyString => EmptyString
  | String c s' =>
      match skip with
      | S k => remove_from old k s'
      | O =>
          if String.prefix old s
          then remove_from old (Nat.pred (String.length old)) s'
          else String c (remove_from old O s')
      end
  end.

Definition remove (old s : string) : string := remove_from old O s.

(** [s.lstrip(chars)], [s.rstrip(chars)], [s.strip(chars)] with the set of
    characters given as a predicate. *)
Fixpoint lstrip (p : ascii -> bool) (s : string) : string :=
  match s with
  | EmptyString => EmptyString
  | String c s' => if p c then lstrip p s' else s
  end.

Fixpoint rstrip (p : ascii -> bool) (s : string) : string :=
  match s with
  | EmptyString => EmptyString
  | String c s' =>
      match rstrip p s' with
      | EmptyString => if p c then EmptyString else String c EmptyString
      | r => String c r
      end
  end.

Definition strip (p : ascii -> bool) (s : string) : string :=
  rstrip p (lstrip p s).

(** White space as [int()] sees it, for code points below 256: the C
    white space, and the two Latin-1 space characters (which the conversion
    of a non-ASCII string turns into blanks). *)
Definition is_space (c : ascii) : bool :=
  between 9 13 c || (ord c =? 32) || (ord c =? 133) || (ord c =? 160).

Fixpoint all (p : ascii -> bool) (s : string) : bool :=
  match s with
  | EmptyString => true
  | String c s' => p c && all p s'
  end.

End Str.

(** ** Python's [int(s, 16)] *)

Module PyInt.

(** Value of a digit in base 16, [None] for any other character. *)
Definition hex_digit_value (c : ascii) : option Z :=
  if Str.between 48 57 c then Some (Str.ord c - 48)
  else if Str.between 97 102 c then Some (Str.ord c - 87)
  else if Str.between 65 70 c then Some (Str.ord c - 55)
  else None.

Inductive scan_state : Set := AtStart | AfterDigit | AfterUnderscore.

(** What the scan returns when it stops in front of [rest]. *)
Definition scan_stop (st : scan_state) (acc : Z) (rest : string) : option (Z * string) :=
  match st with
  | AfterDigit => Some (acc, rest)
  | AtStart | AfterUnderscore => None
  end.

(** The digit loop: digits and single underscores between them.  The scan
    fails on a doubled or trailing underscore and when it consumed nothing. *)
Fixpoint scan_hex (st : scan_state) (acc : Z) (s : string) : option (Z * string) :=
  match s with
  | EmptyString => scan_stop st acc s
  | String c s' =>
      if Str.is_char c "_"
      then match st with
           | AfterUnderscore => None
           | _ => scan_hex AfterUnderscore acc s'
           end
      else match hex_digit_value c with
           | Some d => scan_hex AfterDigit (acc * 16 + d) s'
           | None => scan_stop st acc s
           end
  end.

(** The optional sign. *)
Definition split_sign (s : string) : Z * string :=
  match s with
  | String c s' =>
      if Str.is_char c "+" then (1, s')
      else if Str.is_char c "-" then (-1, s')
      else (1, s)
  | EmptyString => (1, s)
  end.

(** The optional [0x]/[0X] prefix, after which one underscore is allowed. *)
Definition skip_prefix (s : string) : string :=
  match s with
  | String c0 (String c1 s') =>
      if Str.is_char c0 "0" && (Str.is_char c1 "x" || Str.is_char c1 "X")
      then match s' with
           | String c2 s'' => if Str.is_char c2 "_" then s'' else s'
           | EmptyString => s'
           end
      else s
  | _ => s
  end.

Definition starts_with_underscore (s : string) : bool :=
  match s with
  | String c _ => Str.is_char c "_"
  | EmptyString => false
  end.

(** [int(s, 16)]; every failure is a [ValueError]. *)
Definition int16 (s : string) : result Z :=
  let '(sign, s1) := split_sign (Str.lstrip Str.is_space s) in
  let s2 := skip_prefix s1 in
  if starts_with_underscore s2 then Raise ValueError
  else match scan_hex AtStart 0 s2 with
       | None => Raise ValueError
       | Some (n, rest) =>
           if Str.all Str.is_space rest then Ok (sign * n) else Raise ValueError
       end.

End PyInt.

(** ** Fixed-width positional notation *)

Module Digits.

(** The [len] least significant digits of [n] in base [base], most
    significant first. *)
Fixpoint to_digits (base : Z) (len : nat) (n : Z) : list Z :=
  match len with
  | O => []
  | S k => to_digits base k (n / base) ++ [n mod base]
  end.

Definition of_digits (base : Z) (acc : Z) (ds : list Z) : Z :=
  fold_left (fun a d => a * base + d) ds acc.

End Digits.

(** ** [uuid.UUID] *)

Module uuid.

(** An identifier is its 128-bit integer; equality and hashing of
    [uuid.UUID] go through that integer. *)
Definition in_range (n : Z) : Prop := 0 <= n < 2 ^ 128.

Definition UUID : Type := dsig in_range.

Definition int (u : UUID) : Z := proj1_sig u.

(** [UUID(int=n)]: the range check of the constructor. *)
Definition of_int (n : Z) : result UUID :=
  match decide (in_range n) with
  | left H => Ok (dexist n H)
  | right _ => Raise ValueError
  end.

Definition hex_char (d : Z) : ascii :=
  if d <? 10 then ascii_of_N (Z.to_N (d + 48)) else ascii_of_N (Z.to_N (d + 87)).

(** The lower-case hexadecimal numeral with the given digits. *)
Definition hexstr (ds : list Z) : string :=
  string_of_list_ascii (map hex_char ds).

(** [u.hex], that is ['%032x' % u.int]. *)
Definition hex (u : UUID) : string :=
  hexstr (Digits.to_digits 16 32 (int u)).

(** The characters [0-9a-f]. *)
Definition is_lower_hex (c : ascii) : bool :=
  Str.between 48 57 c || Str.between 97 102 c.

Definition byte_of_Z (d : Z) : byte :=
  match Byte.of_N (Z.to_N d) with
  | Some b => b
  | None => x00
  end.

Definition Z_of_byte (b : byte) : Z := Z.of_N (Byte.to_N b).

(** [u.bytes], that is [u.int.to_bytes(16, 'big')]. *)
Definition bytes (u : UUID) : list byte :=
  map byte_of_Z (Digits.to_digits 256 16 (int u)).

Definition is_brace (c : ascii) : bool := Str.is_char c "{" || Str.is_char c "}".

(** [UUID(hex=s)] for a [str] argument. *)
Definition of_hex (s : string) : result UUID :=
  let h := Str.remove "uuid:" (Str.remove "urn:" s) in
  let h := Str.remove "-" (Str.strip is_brace h) in
  if negb (Nat.eqb (String.length h) 32) then Raise ValueError
  else n ← PyInt.int16 h; of_int n.

(** [UUID(bytes=b)]. *)
Definition of_bytes (b : list byte) : result UUID :=
  if negb (Nat.eqb (List.length b) 16) then Raise ValueError
  else of_int (Digits.of_digits 256 0 (map Z_of_byte b)).

End uuid.

Abbreviation UUID := uuid.UUID.

(** ** [srctools]: keyvalues trees *)

Module srctools.

(** A [Property] is a named leaf holding a string or a named block of
    child properties. *)
Inductive Property : Type :=
| Leaf (name : string) (value : string)
| Block (name : string) (children : list Property).

(** What [prop.value] evaluates to: a [str] for a leaf, the child list for
    a block. *)
Inductive PropValue : Type :=
| VStr (s : string)
| VList (l : list Property).

Definition real_name (p : Property) : string :=
  match p with
  | Leaf n _ | Block n _ => n
  end.

Definition folded_name (p : Property) : string := Str.casefold (real_name p).

Definition value (p : Property) : PropValue :=
  match p with
  | Leaf _ v => VStr v
  | Block _ ch => VList ch
  end.

Definition name_is (key : string) (p : Property) : bool :=
  String.eqb (folded_name p) (Str.casefold key).

(** [data.find_all(key)] with a single key: the direct children named
    [key], in order.  A leaf cannot be iterated. *)
Definition find_all (data : Property) (key : string) : result (list Property) :=
  match data with
  | Leaf _ _ => Raise ValueError
  | Block _ ch => Ok (List.filter (name_is key) ch)
  end.

(** [prop.has_children()] negated: the property holds a string. *)
Definition holds_string (p : Property) : Datatypes.bool :=
  match p with
  | Leaf _ _ => true
  | Block _ _ => false
  end.

(** The search of [data[key]]: the children are scanned from the last one
    backwards, a child that is a block is passed over, and the first leaf
    named [key] wins. *)
Definition last_named (key : string) (ch : list Property) : option Property :=
  List.find (fun p => name_is key p && holds_string p) (List.rev ch).

(** [data[key]]: the value of the last leaf child named [key]. *)
Definition getitem (data : Property) (key : string) : result PropValue :=
  match data with
  | Leaf _ _ => Raise ValueError
  | Block _ ch =>
      match last_named key ch with
      | Some p => Ok (value p)
      | None => Raise NoKeyError
      end
  end.

Definition BOOL_LOOKUP : gmap string bool :=
  list_to_map
    [ ("0", false); ("no", false); ("false", false); ("n", false); ("f", false);
      ("1", true); ("yes", true); ("true", true); ("y", true); ("t", true) ].

(** [BOOL_LOOKUP[v.casefold()]] *)
Definition lookup_bool (v : PropValue) : result bool :=
  match v with
  | VList _ => Raise AttributeError
  | VStr s =>
      match BOOL_LOOKUP !! Str.casefold s with
      | Some b => Ok b
      | None => Raise KeyError
      end
  end.

(** [data.bool(key, def_)]: a missing key and an unknown word both give
    the default. *)
Definition bool (data : Property) (key : string) (def_ : Datatypes.bool)
    : result Datatypes.bool :=
  try_except (v ← getitem data key; lookup_bool v) is_LookupError (Ok def_).

Definition bool_as_int (val : Datatypes.bool) : string :=
  if val then "1" else "0".

(** [prop.append(child)] on a block; a leaf has no child list. *)
Definition append (prop child : Property) : Property :=
  match prop with
  | Block n ch => Block n (ch ++ [child])
  | Leaf n v => Leaf n v
  end.

End srctools.

(** ** [srctools.dmx]: elements with typed attributes *)

Module dmx.

(** Scalar payloads.  [VBool] and [VBinary] are the two types written by
    this file and [VString] is the type of the [name] attribute of every
    element; [VInteger] stands for the foreign types an element read from
    disk may carry. *)
Inductive Value : Type :=
| VInteger (z : Z)
| VBool (b : bool)
| VString (s : string)
| VBinary (b : list byte).

Inductive AttrValue : Type :=
| Scalar (v : Value)
| Array (vs : list Value).

Record Attribute : Type := mkAttribute {
  attr_name : string;
  attr_value : AttrValue;
}.

(** An element keeps its attributes in a dictionary keyed by the
    casefolded attribute name.  Its name is one of them: the string
    attribute [name]. *)
Record Element : Type := mkElement {
  elem_type : string;
  members : gmap string Attribute;
}.

(** [Element(name, type)]: the new element already holds its [name]
    attribute. *)
Definition new (name type : string) : Element :=
  {| elem_type := type;
     members := {[ "name" := mkAttribute "name" (Scalar (VString name)) ]} |}.

(** [elem[key]] *)
Definition getitem (elem : Element) (key : string) : result Attribute :=
  match members elem !! Str.casefold key with
  | Some a => Ok a
  | None => Raise KeyError
  end.

(** [elem[key] = value] *)
Definition setitem (elem : Element) (key : string) (v : AttrValue) : Element :=
  {| elem_type := elem_type elem;
     members := <[Str.casefold key := mkAttribute key v]> (members elem) |}.

(** [attr.append(value)] for the attribute object stored under [key]: the
    object is shared with the element, so the element sees the new item.  An
    attribute that is not yet an array becomes one, holding its old value
    first. *)
Definition append_at (elem : Element) (key : string) (v : Value) : Element :=
  match members elem !! Str.casefold key with
  | Some (mkAttribute n (Array vs)) => setitem elem n (Array (vs ++ [v]))
  | Some (mkAttribute n (Scalar v0)) => setitem elem n (Array [v0; v])
  | None => elem
  end.

Section Convert.

(** The library's conversion table [TYPE_CONVERT], restricted to the two
    target types read here and applied to a value of another type.  The
    table is not part of this repository; it is a parameter. *)
Variable conv_binary : Value -> result (list byte).
Variable conv_bool : Value -> result bool.

Definition to_binary (v : Value) : result (list byte) :=
  match v with
  | VBinary b => Ok b
  | _ => conv_binary v
  end.

Definition to_bool (v : Value) : result bool :=
  match v with
  | VBool b => Ok b
  | _ => conv_bool v
  end.

(** [attr.val_bytes]: an array has no single value. *)
Definition val_bytes (a : Attribute) : result (list byte) :=
  match attr_value a with
  | Array _ => Raise ValueError
  | Scalar v => to_binary v
  end.

(** [attr.val_bool] *)
Definition val_bool (a : Attribute) : result bool :=
  match attr_value a with
  | Array _ => Raise ValueError
  | Scalar v => to_bool v
  end.

(** [attr.iter_bytes()]: a generator; each item is converted when it is
    requested, so a failing conversion shows up in the consumer. *)
Definition iter_bytes (a : Attribute) : list (result (list byte)) :=
  match attr_value a with
  | Array vs => map to_binary vs
  | Scalar v => [to_binary v]
  end.

End Convert.

End dmx.

(** ** [BEE2_config]: the legacy configuration file *)

Module BEE2_config.

(** Modelled from the spec: the class [ConfigFile] behind [GEN_OPTS] is not
    among the sources.  The legacy source is an external flat key/value
    store, read-only from this subsystem, organised as named sections each
    holding string-keyed scalar values. *)
Definition ConfigFile : Type := gmap string (gmap string string).

(** The raw content of a key, if the section and the key exist. *)
Definition read (conf : ConfigFile) (section key : string) : option string :=
  match conf !! section with
  | Some sect => sect !! key
  | None => None
  end.

(** Modelled from the spec: [get_val(section, key, default)] is a typed
    read that gives [default] when the section or the key is missing. *)
Definition get_val (conf : ConfigFile) (section key default : string) : string :=
  match read conf section key with
  | Some v => v
  | None => default
  end.

(** Modelled from the spec: [get_bool(section, key)] reads a boolean-valued
    key and substitutes the documented default [False] on a missing key or
    on a value that is not a boolean. *)
Definition get_bool (conf : ConfigFile) (section key : string) : bool :=
  match srctools.BOOL_LOOKUP !! Str.casefold (get_val conf section key "0") with
  | Some b => b
  | None => false
  end.

End BEE2_config.

(** ** [config.palette.PaletteState] *)

(** Data related to palettes which is restored next run.  The class is an
    [attrs.frozen] class without validators or converters: its generated
    constructor stores the three arguments as they are given. *)
Record PaletteState : Type := mkPaletteState {
  selected : UUID;
  save_settings : bool;
  hidden_defaults : gset UUID;
}.

(** The two invariants of the data model. *)
Definition selected_not_hidden (r : PaletteState) : Prop :=
  selected r ∉ hidden_defaults r.

Definition force_shown_not_hidden (FORCE_SHOWN : gset UUID) (r : PaletteState) : Prop :=
  ∀ u, u ∈ FORCE_SHOWN → u ∉ hidden_defaults r.

(** ** Sample values

    Concrete identifiers, records and inputs at which the statements below
    are exercised.  [portal2] and [force_shown] stand in for the two
    constants of [consts.py]; nothing depends on their values. *)

Module Sample.

Definition id_a : UUID := exist _ 0x0123456789abcdef0123456789abcdef I.
Definition id_b : UUID := exist _ 0xfedcba9876543210fedcba9876543210 I.
Definition portal2 : UUID := exist _ 0xe6d8fd15e0c64d9e95ad739ee1a2ece3 I.

Definition force_shown : gset UUID := {[ portal2 ]}.

(** A conversion table without any entry. *)
Definition no_conv {A} (v : dmx.Value) : result A := Raise ValueError.

(** A record that hides its own selection. *)
Definition hides_selected : PaletteState := mkPaletteState id_a false {[ id_a ]}.

(** A record that satisfies both invariants. *)
Definition well_formed : PaletteState := mkPaletteState id_a true {[ id_b ]}.

(** A text block whose [selected] is not an identifier. *)
Definition kv1_malformed : srctools.Property :=
  srctools.Block "Palette"
    [ srctools.Leaf "selected" "not-an-identifier";
      srctools.Leaf "save_settings" "1" ].

(** A binary element whose [selected] has the wrong length. *)
Definition dmx_malformed : dmx.Element :=
  dmx.setitem
    (dmx.setitem (dmx.new "Palette" "DMElement")
       "selected" (dmx.Scalar (dmx.VBinary [x01; x02])))
    "save_settings" (dmx.Scalar (dmx.VBool true)).

(** A text block whose only [selected] child is a block. *)
Definition kv1_block_selected : srctools.Property :=
  srctools.Block "Palette"
    [ srctools.Block "selected" [ srctools.Leaf "id" "0123456789abcdef0123456789abcdef" ];
      srctools.Leaf "save_settings" "1" ].

(** A conversion table whose only entry to binary is the one for integers.
    It packs the number as a signed 32-bit integer in little-endian order,
    as [struct.pack('<i', n)] does: a number out of that range raises
    [struct.error]. *)
Definition pack_int32 (v : dmx.Value) : result (list byte) :=
  match v with
  | dmx.VInteger z =>
      if (- 2 ^ 31 <=? z) && (z <? 2 ^ 31)
      then Ok (map uuid.byte_of_Z (rev (Digits.to_digits 256 4 (z mod 2 ^ 32))))
      else Raise StructError
  | _ => Raise ValueError
  end.

(** A binary element whose [selected] is an integer attribute holding
    [2 ** 40]. *)
Definition dmx_integer_selected : dmx.Element :=
  dmx.setitem
    (dmx.setitem (dmx.new "Palette" "DMElement")
       "selected" (dmx.Scalar (dmx.VInteger (2 ^ 40))))
    "save_settings" (dmx.Scalar (dmx.VBool true)).

(** A legacy store with an empty [palette_uuid] and no
    [palette_save_settings]. *)
Definition legacy_empty_uuid : BEE2_config.ConfigFile :=
  {[ "Last_Selected" := {[ "palette_uuid" := "" ]} ]}.

End Sample.

(** Runs the binds and handlers whose argument is already a result. *)
Tactic Notation "py_run" := cbn [mbind result_bind Py.bind try_except].
Tactic Notation "py_run" "in" hyp(H) :=
  cbn [mbind result_bind Py.bind try_except] in H.

(** Steps through one [x ← m; k] of a hypothesis [H : ... = Ok r]. *)
Ltac step_bind H :=
  match type of H with
  | context [mbind _ ?m] =>
      let E := fresh "E" in
      destruct m eqn:E; cbn [mbind result_bind Py.bind] in H; [|discriminate H]
  end.

(** Case analysis on the 256 characters. *)
Ltac each_char c :=
  destruct c as [[] [] [] [] [] [] [] []]; try discriminate; try reflexivity.

Section Palette.

(** [consts.UUID_PORTAL2] and [consts.PALETTE_FORCE_SHOWN]: constants of
    the repository that are defined outside the sources at hand. *)
Variable UUID_PORTAL2 : UUID.
Variable FORCE_SHOWN : gset UUID.

(** The conversions of [srctools.dmx]. *)
Variable conv_binary : dmx.Value -> result (list byte).
Variable conv_bool : dmx.Value -> result bool.

(** The constructor called with no argument: the declared defaults. *)
Definition PaletteState_default : PaletteState :=
  mkPaletteState UUID_PORTAL2 false ∅.

(** [UUID(hex=v)] for whatever [prop.value] gave: the constructor calls
    [v.replace], which a list does not have. *)
Definition UUID_hex (v : srctools.PropValue) : result UUID :=
  match v with
  | srctools.VStr s => uuid.of_hex s
  | srctools.VList _ => Raise AttributeError
  end.

Definition catches_lookup_or_value (e : exn) : bool :=
  is_LookupError e || is_ValueError e.

(** Convert the legacy config options to the new format.  The module
    global [LEGACY_CONF] ([BEE2_config.GEN_OPTS], the process-wide legacy
    configuration) that the method reads is passed explicitly. *)
Definition parse_legacy (LEGACY_CONF : BEE2_config.ConfigFile) (conf : srctools.Property)
    : result (gmap string PaletteState) :=
  selected_uuid ←
    try_except
      (uuid.of_hex (BEE2_config.get_val LEGACY_CONF "Last_Selected" "palette_uuid" ""))
      is_ValueError
      (Ok UUID_PORTAL2);
  Ok {[ "" := mkPaletteState
                selected_uuid
                (BEE2_config.get_bool LEGACY_CONF "General" "palette_save_settings")
                ∅ ]}.

(** The set comprehension of [parse_kv1]. *)
Definition kv1_hidden (data : srctools.Property) : result (gset UUID) :=
  props ← srctools.find_all data "hidden";
  ids ← comprehension (fun prop => UUID_hex (srctools.value prop)) props;
  Ok (list_to_set ids).

(** The body of the [try] of [parse_kv1]. *)
Definition kv1_selected (data : srctools.Property) : result UUID :=
  v ← srctools.getitem data "selected"; UUID_hex v.

(** Parse Keyvalues data. *)
Definition parse_kv1 (data : srctools.Property) (version : Z) : result PaletteState :=
  if negb (version =? 1) then Raise AssertionError
  else
    hidden ← kv1_hidden data;
    uuid ← try_except (kv1_selected data) catches_lookup_or_value (Ok UUID_PORTAL2);
    let hidden := hidden ∖ {[ uuid ]} in
    let hidden := hidden ∖ FORCE_SHOWN in
    save ← srctools.bool data "save_settings" false;
    Ok (mkPaletteState uuid save hidden).

(** Export to a property block. *)
Definition export_kv1 (self : PaletteState) : srctools.Property :=
  let prop :=
    srctools.Block ""
      [ srctools.Leaf "selected" (uuid.hex (selected self));
        srctools.Leaf "save_settings" (srctools.bool_as_int (save_settings self)) ] in
  foldl (fun prop hidden => srctools.append prop (srctools.Leaf "hidden" (uuid.hex hidden)))
    prop (elements (hidden_defaults self)).

(** The body of the first [try] of [parse_dmx]. *)
Definition dmx_selected (data : dmx.Element) : result UUID :=
  a ← dmx.getitem data "selected";
  b ← dmx.val_bytes conv_binary a;
  uuid.of_bytes b.

(** The set comprehension of [parse_dmx]: each item of the generator is
    converted, then decoded. *)
Definition dmx_hidden (hidden_arr : list (result (list byte))) : result (gset UUID) :=
  ids ← comprehension (fun byt => b ← byt; uuid.of_bytes b) hidden_arr;
  Ok (list_to_set ids).

(** Parse DMX data.  The version is not looked at. *)
Definition parse_dmx (data : dmx.Element) (version : Z) : result PaletteState :=
  uuid ← try_except (dmx_selected data) catches_lookup_or_value (Ok UUID_PORTAL2);
  hidden ←
    match (a ← dmx.getitem data "hidden"; Ok (dmx.iter_bytes conv_binary a)) with
    | Raise e => if is_KeyError e then Ok ∅ else Raise e
    | Ok hidden_arr =>
        hidden ← dmx_hidden hidden_arr;
        let hidden := hidden ∖ {[ uuid ]} in
        Ok (hidden ∖ FORCE_SHOWN)
    end;
  a ← dmx.getitem data "save_settings";
  save ← dmx.val_bool conv_bool a;
  Ok (mkPaletteState uuid save hidden).

(** Export to a DMX. *)
Definition export_dmx (self : PaletteState) : dmx.Element :=
  let elem := dmx.new "Palette" "DMElement" in
  let elem := dmx.setitem elem "selected" (dmx.Scalar (dmx.VBinary (uuid.bytes (selected self)))) in
  let elem := dmx.setitem elem "save_settings" (dmx.Scalar (dmx.VBool (save_settings self))) in
  let elem := dmx.setitem elem "hidden" (dmx.Array []) in
  foldl (fun elem uuid => dmx.append_at elem "hidden" (dmx.VBinary (uuid.bytes uuid)))
    elem (elements (hidden_defaults self)).

(** The records that come out of one of the three ingestion paths. *)
Inductive ingested : PaletteState -> Prop :=
| ingested_kv1 data version r :
    parse_kv1 data version = Ok r -> ingested r
| ingested_dmx data version r :
    parse_dmx data version = Ok r -> ingested r
| ingested_legacy LEGACY_CONF conf (m : gmap string PaletteState) key r :
    parse_legacy LEGACY_CONF conf = Ok m -> m !! key = Some r -> ingested r.

(** A record after the two filters of the parse routines. *)
Definition filtered (r : PaletteState) : PaletteState :=
  mkPaletteState (selected r) (save_settings r)
    (hidden_defaults r ∖ {[ selected r ]} ∖ FORCE_SHOWN).

(** The text input has no leaf named [selected], or the last one holds a
    string that does not decode. *)
Definition kv1_selected_bad (data : srctools.Property) : Prop :=
  srctools.getitem data "selected" = Raise NoKeyError
  \/ exists s, srctools.getitem data "selected" = Ok (srctools.VStr s)
               /\ uuid.of_hex s = Raise ValueError.

(** The binary input has no [selected] attribute, or one whose value cannot
    be read as bytes, or one whose bytes do not decode. *)
Definition dmx_selected_bad (data : dmx.Element) : Prop :=
  dmx.getitem data "selected" = Raise KeyError
  \/ exists a, dmx.getitem data "selected" = Ok a
               /\ (dmx.val_bytes conv_binary a = Raise ValueError
                   \/ exists b, dmx.val_bytes conv_binary a = Ok b
                                /\ uuid.of_bytes b = Raise ValueError).


(** ** What the exporters write for one hidden identifier *)

Definition hidden_leaf (u : UUID) : srctools.Property :=
  srctools.Leaf "hidden" (uuid.hex u).

Definition binary_value (u : UUID) : dmx.Value := dmx.VBinary (uuid.bytes u).

(** ** Binary inputs that lack some attributes *)

(** An element holding [selected] and an empty [hidden] array, but no
    [save_settings]. *)
Definition palette_without_save_settings (u : UUID) : dmx.Element :=
  dmx.setitem
    (dmx.setitem (dmx.new "Palette" "DMElement")
       "selected" (dmx.Scalar (dmx.VBinary (uuid.bytes u))))
    "hidden" (dmx.Array []).

(** An element holding [selected] only. *)
Definition palette_only_selected (u : UUID) : dmx.Element :=
  dmx.setitem (dmx.new "Palette" "DMElement")
    "selected" (dmx.Scalar (dmx.VBinary (uuid.bytes u))).

(** An element holding [selected] and [save_settings] but no [hidden]. *)
Definition palette_without_hidden (u : UUID) (save : bool) : dmx.Element :=
  dmx.setitem (palette_only_selected u) "save_settings" (dmx.Scalar (dmx.VBool save)).

(** ** The exporters under another iteration order

    Python does not fix the order in which a [frozenset] is iterated.  The
    two functions below are the loops of [export_kv1] and [export_dmx] run
    over an arbitrary enumeration [order] of [hidden_defaults]; the
    exporters are the instances at [elements]. *)

Definition export_kv1_in (order : list UUID) (self : PaletteState) : srctools.Property :=
  let prop :=
    srctools.Block ""
      [ srctools.Leaf "selected" (uuid.hex (selected self));
        srctools.Leaf "save_settings" (srctools.bool_as_int (save_settings self)) ] in
  foldl (fun prop hidden => srctools.append prop (srctools.Leaf "hidden" (uuid.hex hidden)))
    prop order.

Definition export_dmx_in (order : list UUID) (self : PaletteState) : dmx.Element :=
  let elem := dmx.new "Palette" "DMElement" in
  let elem := dmx.setitem elem "selected" (dmx.Scalar (dmx.VBinary (uuid.bytes (selected self)))) in
  let elem := dmx.setitem elem "save_settings" (dmx.Scalar (dmx.VBool (save_settings self))) in
  let elem := dmx.setitem elem "hidden" (dmx.Array []) in
  foldl (fun elem uuid => dmx.append_at elem "hidden" (dmx.VBinary (uuid.bytes uuid)))
    elem order.

(** ** Shapes of text and binary inputs *)

(** The three keys that the parsers look up. *)
Definition palette_keys : list string := ["selected"; "save_settings"; "hidden"].

(** A child that none of the three lookups of [parse_kv1] can find. *)
Definition foreign_child (p : srctools.Property) : Prop :=
  Forall (fun key => srctools.name_is key p = false) palette_keys.

(** An attribute name that none of the three lookups of [parse_dmx] uses. *)
Definition foreign_name (name : string) : Prop :=
  Forall (fun key => Str.casefold name <> Str.casefold key) palette_keys.

(** A [hidden] child that holds a string which is not an identifier. *)
Definition malformed_hidden (p : srctools.Property) : Prop :=
  srctools.name_is "hidden" p = true
  /\ exists n v, p = srctools.Leaf n v /\ uuid.of_hex v = Raise ValueError.

(** Every [hidden] child holds a string. *)
Definition hidden_are_leaves (ch : list srctools.Property) : Prop :=
  Forall (fun p => srctools.name_is "hidden" p = true ->
                   exists n v, p = srctools.Leaf n v) ch.

(** A record written in the 32-digit lower-case form and nothing else. *)
Definition canonical_hex (s : string) : Prop :=
  String.length s = 32%nat /\ Str.all uuid.is_lower_hex s = true.

(** More sample inputs. *)

(** A text block with one good and one malformed [hidden] entry. *)
Definition sample_bad_hidden : list srctools.Property :=
  [ srctools.Leaf "selected" (uuid.hex Sample.id_a);
    srctools.Leaf "hidden" (uuid.hex Sample.id_b);
    srctools.Leaf "hidden" "0123" ].

(** A binary element whose [hidden] array has an item of two bytes. *)
Definition sample_bad_hidden_dmx : dmx.Element :=
  dmx.setitem (palette_without_hidden Sample.id_a true)
    "hidden" (dmx.Array [dmx.VBinary [x01; x02]]).

(** A child that holds a string. *)
Definition is_leaf (p : srctools.Property) : Prop :=
  exists n v, p = srctools.Leaf n v.

(** A child that is not a [hidden] entry, or one that holds an identifier
    in a form that [UUID(hex=...)] accepts. *)
Definition hidden_decodes (p : srctools.Property) : Prop :=
  srctools.name_is "hidden" p = true ->
  exists n v u, p = srctools.Leaf n v /\ uuid.of_hex v = Ok u.

(** A binary value of 16 bytes. *)
Definition binary16 (v : dmx.Value) : Prop :=
  exists b, v = dmx.VBinary b /\ length b = 16%nat.

(** A binary element of the expected types: [save_settings] is a boolean,
    [hidden] is absent or an array of 16-byte values, [selected] is absent,
    a byte string of any length, or an array. *)
Definition typed_element (data : dmx.Element) : Prop :=
  (exists a b, dmx.getitem data "save_settings" = Ok a
               /\ dmx.attr_value a = dmx.Scalar (dmx.VBool b))
  /\ (forall a, dmx.getitem data "hidden" = Ok a ->
        exists vs, dmx.attr_value a = dmx.Array vs /\ Forall binary16 vs)
  /\ (forall a, dmx.getitem data "selected" = Ok a ->
        (exists vs, dmx.attr_value a = dmx.Array vs)
        \/ exists b, dmx.attr_value a = dmx.Scalar (dmx.VBinary b)).

(** A flat text block with an unreadable selection and flag, and one
    well-formed hidden entry. *)
Definition sample_flat : list srctools.Property :=
  [ srctools.Leaf "selected" "nonsense";
    srctools.Leaf "save_settings" "perhaps";
    srctools.Leaf "hidden" (uuid.hex Sample.id_b) ].

(** A record that hides two identifiers, one of them force-shown. *)
Definition sample_two_hidden : PaletteState :=
  mkPaletteState Sample.id_a false {[ Sample.id_b; Sample.portal2 ]}.

(** A child under a key that the parsers do not read. *)
Definition sample_comment : srctools.Property := srctools.Leaf "Comment" "edited by hand".

(** Legacy stores with a valid and with an undecodable [palette_uuid]. *)
Definition sample_legacy_valid : BEE2_config.ConfigFile :=
  {[ "Last_Selected" := {[ "palette_uuid" := uuid.hex Sample.id_a ]} ]}.

Definition sample_legacy_junk : BEE2_config.ConfigFile :=
  {[ "Last_Selected" := {[ "palette_uuid" := "zz" ]} ]}.

(** * Properties of the libraries *)

(** ** Positional notation *)

Section DigitsFacts.

Variable base : Z.
Hypothesis base_pos : 0 < base.

Lemma of_digits_app acc ds1 ds2 :
  Digits.of_digits base acc (ds1 ++ ds2)
  = Digits.of_digits base (Digits.of_digits base acc ds1) ds2.
Proof. unfold Digits.of_digits. apply fold_left_app. Qed.

Lemma to_digits_length len n : length (Digits.to_digits base len n) = len.
Proof.
  revert n. induction len as [|k IH]; intros n; simpl; [done|].
  rewrite length_app, IH. simpl. lia.
Qed.

Lemma to_digits_range len n :
  Forall (fun d => 0 <= d < base) (Digits.to_digits base len n).
Proof.
  revert n. induction len as [|k IH]; intros n; simpl.
  - constructor.
  - apply Forall_app. split; [apply IH|].
    constructor; [|constructor]. apply Z.mod_pos_bound, base_pos.
Qed.

(** Reading back the [len] digits of [n] gives [n] modulo [base ^ len]. *)
Lemma of_to_digits len n acc :
  0 <= n ->
  Digits.of_digits base acc (Digits.to_digits base len n)
  = acc * base ^ Z.of_nat len + n mod base ^ Z.of_nat len.
Proof.
  revert n acc. induction len as [|k IH]; intros n acc Hn.
  - simpl. rewrite Z.mod_1_r. lia.
  - cbn [Digits.to_digits]. rewrite of_digits_app, IH by (apply Z.div_pos; lia).
    cbn [Digits.of_digits fold_left].
    rewrite Nat2Z.inj_succ, Z.pow_succ_r by lia.
    rewrite (Z.rem_mul_r n base (base ^ Z.of_nat k)) by lia.
    lia.
Qed.

End DigitsFacts.

(** ** Hexadecimal numerals *)

Lemma hex_char_lower d :
  0 <= d < 16 -> uuid.is_lower_hex (uuid.hex_char d) = true.
Proof.
  intros H.
  assert (d = 0 \/ d = 1 \/ d = 2 \/ d = 3 \/ d = 4 \/ d = 5 \/ d = 6 \/ d = 7 \/
          d = 8 \/ d = 9 \/ d = 10 \/ d = 11 \/ d = 12 \/ d = 13 \/ d = 14 \/ d = 15)
    as Hd by lia.
  repeat (destruct Hd as [-> | Hd]; [reflexivity|]). subst d. reflexivity.
Qed.

Lemma hex_char_value d :
  0 <= d < 16 -> PyInt.hex_digit_value (uuid.hex_char d) = Some d.
Proof.
  intros H.
  assert (d = 0 \/ d = 1 \/ d = 2 \/ d = 3 \/ d = 4 \/ d = 5 \/ d = 6 \/ d = 7 \/
          d = 8 \/ d = 9 \/ d = 10 \/ d = 11 \/ d = 12 \/ d = 13 \/ d = 14 \/ d = 15)
    as Hd by lia.
  repeat (destruct Hd as [-> | Hd]; [reflexivity|]). subst d. reflexivity.
Qed.

(** A hexadecimal digit is none of the characters that the decoders treat
    specially. *)
Lemma lower_hex_not_space c : uuid.is_lower_hex c = true -> Str.is_space c = false.
Proof. each_char c. Qed.

Lemma lower_hex_not_brace c : uuid.is_lower_hex c = true -> uuid.is_brace c = false.
Proof. each_char c. Qed.

Lemma lower_hex_not_char c d :
  uuid.is_lower_hex d = false -> uuid.is_lower_hex c = true -> Str.is_char c d = false.
Proof.
  intros Hd Hc. unfold Str.is_char. apply Ascii.eqb_neq. intros ->. congruence.
Qed.

Lemma all_lower_hexstr ds :
  Forall (fun d => 0 <= d < 16) ds -> Str.all uuid.is_lower_hex (uuid.hexstr ds) = true.
Proof.
  induction 1 as [|d ds Hd _ IH]; [done|].
  unfold uuid.hexstr in *. simpl. by rewrite hex_char_lower, IH.
Qed.

Lemma hexstr_length ds : String.length (uuid.hexstr ds) = length ds.
Proof.
  unfold uuid.hexstr. induction ds as [|d ds IH]; simpl; [done|]. by rewrite IH.
Qed.

(** ** String operations on strings of plain characters *)

Lemma remove_absent c0 old s :
  Str.all (fun c => negb (Str.is_char c c0)) s = true ->
  Str.remove (String c0 old) s = s.
Proof.
  unfold Str.remove. induction s as [|c s IH]; simpl; [done|].
  intros [Hc Hs]%andb_prop.
  destruct (ascii_dec c0 c) as [->|_].
  - unfold Str.is_char in Hc. by rewrite Ascii.eqb_refl in Hc.
  - by rewrite IH.
Qed.

Lemma all_impl (p q : ascii -> bool) s :
  (forall c, p c = true -> q c = true) -> Str.all p s = true -> Str.all q s = true.
Proof.
  intros Hpq. induction s as [|c s IH]; simpl; [done|].
  intros [Hc Hs]%andb_prop. by rewrite (Hpq _ Hc), IH.
Qed.

Lemma lstrip_none p s :
  Str.all (fun c => negb (p c)) s = true -> Str.lstrip p s = s.
Proof.
  destruct s as [|c s]; simpl; [done|].
  intros [Hc _]%andb_prop. by destruct (p c).
Qed.

Lemma rstrip_none p s :
  Str.all (fun c => negb (p c)) s = true -> Str.rstrip p s = s.
Proof.
  induction s as [|c s IH]; simpl; [done|].
  intros [Hc Hs]%andb_prop. rewrite IH by done.
  destruct s; [|done]. by destruct (p c).
Qed.

(** ** [int(s, 16)] on a plain hexadecimal numeral *)

Lemma scan_hex_digits ds acc :
  Forall (fun d => 0 <= d < 16) ds ->
  PyInt.scan_hex PyInt.AfterDigit acc (uuid.hexstr ds)
  = Some (Digits.of_digits 16 acc ds, "").
Proof.
  intros H. revert acc. induction H as [|d ds Hd _ IH]; intros acc; [done|].
  unfold uuid.hexstr in *. cbn [map string_of_list_ascii PyInt.scan_hex].
  rewrite (lower_hex_not_char _ "_") by (done || by apply hex_char_lower).
  rewrite hex_char_value by done. apply IH.
Qed.

Lemma scan_hex_first st d ds acc :
  0 <= d < 16 ->
  PyInt.scan_hex st acc (uuid.hexstr (d :: ds))
  = PyInt.scan_hex PyInt.AfterDigit (acc * 16 + d) (uuid.hexstr ds).
Proof.
  intros Hd. unfold uuid.hexstr. cbn [map string_of_list_ascii PyInt.scan_hex].
  rewrite (lower_hex_not_char _ "_") by (done || by apply hex_char_lower).
  by rewrite hex_char_value.
Qed.

Lemma skip_prefix_hexstr ds :
  Forall (fun d => 0 <= d < 16) ds ->
  PyInt.skip_prefix (uuid.hexstr ds) = uuid.hexstr ds.
Proof.
  intros H. destruct H as [|d0 ds0 H0 [|d1 ds1 H1 _]]; [done..|].
  unfold uuid.hexstr. cbn [map string_of_list_ascii PyInt.skip_prefix].
  rewrite (lower_hex_not_char (uuid.hex_char d1) "x"),
          (lower_hex_not_char (uuid.hex_char d1) "X")
    by (done || by apply hex_char_lower).
  by rewrite andb_false_r.
Qed.

Lemma int16_hexstr ds :
  Forall (fun d => 0 <= d < 16) ds -> ds <> [] ->
  PyInt.int16 (uuid.hexstr ds) = Ok (Digits.of_digits 16 0 ds).
Proof.
  intros H Hne. unfold PyInt.int16.
  rewrite lstrip_none; cycle 1.
  { eapply all_impl; [|by apply all_lower_hexstr].
    intros c Hc. by rewrite lower_hex_not_space. }
  destruct H as [|d ds Hd Hds]; [done|].
  assert (PyInt.split_sign (uuid.hexstr (d :: ds)) = (1, uuid.hexstr (d :: ds))) as ->.
  { unfold uuid.hexstr. cbn [map string_of_list_ascii PyInt.split_sign].
    by rewrite (lower_hex_not_char _ "+"), (lower_hex_not_char _ "-")
      by (done || by apply hex_char_lower). }
  rewrite skip_prefix_hexstr by by constructor.
  assert (PyInt.starts_with_underscore (uuid.hexstr (d :: ds)) = false) as ->.
  { unfold uuid.hexstr. cbn [map string_of_list_ascii PyInt.starts_with_underscore].
    by rewrite (lower_hex_not_char _ "_") by (done || by apply hex_char_lower). }
  rewrite scan_hex_first, scan_hex_digits by done.
  cbn [Str.all]. by rewrite Z.mul_1_l.
Qed.

(** ** The identifier codec: decoding what was encoded *)

Lemma of_int_int (u : UUID) : uuid.of_int (uuid.int u) = Ok u.
Proof.
  unfold uuid.of_int. destruct (decide _) as [H|H].
  - f_equal. by apply dsig_eq.
  - destruct H. apply (proj2_dsig u).
Qed.

Lemma int_range (u : UUID) : 0 <= uuid.int u < 2 ^ 128.
Proof. apply (proj2_dsig u). Qed.

Lemma hex_all_lower (u : UUID) : Str.all uuid.is_lower_hex (uuid.hex u) = true.
Proof. apply all_lower_hexstr, to_digits_range. lia. Qed.

Lemma hex_length (u : UUID) : String.length (uuid.hex u) = 32%nat.
Proof. unfold uuid.hex. by rewrite hexstr_length, to_digits_length. Qed.

Lemma hex_no_char (u : UUID) d :
  uuid.is_lower_hex d = false ->
  Str.all (fun c => negb (Str.is_char c d)) (uuid.hex u) = true.
Proof.
  intros Hd. eapply all_impl; [|apply hex_all_lower].
  intros c Hc. by rewrite (lower_hex_not_char c d).
Qed.

(** [UUID(hex=u.hex) == u] *)
Lemma of_hex_hex (u : UUID) : uuid.of_hex (uuid.hex u) = Ok u.
Proof.
  unfold uuid.of_hex.
  rewrite (remove_absent "u" "rn:" (uuid.hex u)) by by apply hex_no_char.
  rewrite (remove_absent "u" "uid:" (uuid.hex u)) by by apply hex_no_char.
  unfold Str.strip. rewrite lstrip_none, rstrip_none; cycle 1.
  { eapply all_impl; [|apply hex_all_lower]. intros c Hc. by rewrite lower_hex_not_brace. }
  { eapply all_impl; [|apply hex_all_lower]. intros c Hc. by rewrite lower_hex_not_brace. }
  rewrite (remove_absent "-" "" (uuid.hex u)) by by apply hex_no_char.
  rewrite hex_length. cbn [Nat.eqb negb].
  unfold uuid.hex. rewrite int16_hexstr; cycle 1.
  { apply to_digits_range. lia. }
  { intros E. apply (f_equal (@length Z)) in E. by rewrite to_digits_length in E. }
  cbn [mbind result_bind Py.bind].
  rewrite of_to_digits by (lia || apply int_range).
  rewrite Z.mod_small by (pose proof (int_range u); change (16 ^ Z.of_nat 32) with (2 ^ 128); lia).
  apply of_int_int.
Qed.

Lemma Z_of_byte_of_Z d : 0 <= d < 256 -> uuid.Z_of_byte (uuid.byte_of_Z d) = d.
Proof.
  intros Hd. unfold uuid.Z_of_byte, uuid.byte_of_Z.
  destruct (Byte.of_N (Z.to_N d)) as [b|] eqn:E.
  - apply Byte.to_of_N in E. rewrite E. lia.
  - apply Byte.of_N_None_iff in E. lia.
Qed.

Lemma bytes_length (u : UUID) : length (uuid.bytes u) = 16%nat.
Proof. unfold uuid.bytes. by rewrite length_map, to_digits_length. Qed.

(** [UUID(bytes=u.bytes) == u] *)
Lemma of_bytes_bytes (u : UUID) : uuid.of_bytes (uuid.bytes u) = Ok u.
Proof.
  unfold uuid.of_bytes. rewrite bytes_length. cbn [Nat.eqb negb].
  unfold uuid.bytes. rewrite map_map.
  rewrite (map_ext_Forall _ id), map_id; cycle 1.
  { eapply Forall_impl; [apply (to_digits_range 256); lia|].
    intros d Hd. by apply Z_of_byte_of_Z. }
  rewrite of_to_digits by (lia || apply int_range).
  rewrite Z.mod_small by (pose proof (int_range u); change (256 ^ Z.of_nat 16) with (2 ^ 128); lia).
  apply of_int_int.
Qed.

(** ** Keyvalues trees *)

Lemma find_skip {A} (p : A -> bool) l1 l2 :
  Forall (fun x => p x = false) l1 -> List.find p (l1 ++ l2) = List.find p l2.
Proof. induction 1 as [|x l1 Hx _ IH]; simpl; [done|]. by rewrite Hx. Qed.

(** Children that are not named [key] at the end of a block do not change
    what [data[key]] finds. *)
Lemma last_named_skip key ch1 ch2 :
  Forall (fun p => srctools.name_is key p = false) ch2 ->
  srctools.last_named key (ch1 ++ ch2) = srctools.last_named key ch1.
Proof.
  intros H. unfold srctools.last_named. rewrite rev_app_distr.
  apply find_skip, Forall_rev. eapply Forall_impl; [exact H|].
  intros p Hp. simpl in Hp. by rewrite Hp.
Qed.

(** A leaf named [key] at the end of a block is the one that [data[key]]
    finds. *)
Lemma last_named_last key ch p :
  srctools.name_is key p = true -> srctools.holds_string p = true ->
  srctools.last_named key (ch ++ [p]) = Some p.
Proof.
  intros H Hs. unfold srctools.last_named. rewrite rev_app_distr. simpl.
  by rewrite H, Hs.
Qed.

(** What [data[key]] finds is a leaf. *)
Lemma last_named_leaf key ch p :
  srctools.last_named key ch = Some p ->
  exists n v, p = srctools.Leaf n v /\ srctools.name_is key p = true.
Proof.
  intros H. apply List.find_some in H as [_ H].
  apply andb_prop in H as [Hn Hs]. destruct p as [n v|n c]; [|done].
  by exists n, v.
Qed.

Lemma hidden_leaves_named key (l : list UUID) :
  Forall (fun p => srctools.name_is key p = srctools.name_is key (srctools.Leaf "hidden" ""))
    (map hidden_leaf l).
Proof. apply Forall_map, Forall_forall. done. Qed.

Lemma filter_hidden_leaves (l : list UUID) :
  List.filter (srctools.name_is "hidden") (map hidden_leaf l) = map hidden_leaf l.
Proof. induction l as [|u l IH]; simpl; [done|]. by rewrite IH. Qed.

Lemma comprehension_hidden_leaves (l : list UUID) :
  comprehension (fun prop => UUID_hex (srctools.value prop)) (map hidden_leaf l) = Ok l.
Proof.
  induction l as [|u l IH]; [done|].
  cbn [map comprehension hidden_leaf srctools.value UUID_hex].
  rewrite of_hex_hex, IH. done.
Qed.

Lemma foldl_append_hidden name ch (l : list UUID) :
  foldl (fun prop hidden => srctools.append prop (srctools.Leaf "hidden" (uuid.hex hidden)))
    (srctools.Block name ch) l
  = srctools.Block name (ch ++ map hidden_leaf l).
Proof.
  revert ch. induction l as [|u l IH]; intros ch; simpl.
  - by rewrite app_nil_r.
  - rewrite IH, <- app_assoc. done.
Qed.

(** The block written by [export_kv1]. *)
Lemma export_kv1_block (r : PaletteState) :
  export_kv1 r
  = srctools.Block ""
      ([ srctools.Leaf "selected" (uuid.hex (selected r));
         srctools.Leaf "save_settings" (srctools.bool_as_int (save_settings r)) ]
       ++ map hidden_leaf (elements (hidden_defaults r))).
Proof. unfold export_kv1. apply foldl_append_hidden. Qed.

Lemma lookup_bool_as_int b :
  srctools.lookup_bool (srctools.VStr (srctools.bool_as_int b)) = Ok b.
Proof. by destruct b. Qed.

(** ** DMX elements *)

Lemma foldl_append_at (l : list UUID) (e : dmx.Element) vs :
  dmx.members e !! "hidden" = Some (dmx.mkAttribute "hidden" (dmx.Array vs)) ->
  foldl (fun elem u => dmx.append_at elem "hidden" (dmx.VBinary (uuid.bytes u))) e l
  = dmx.setitem e "hidden" (dmx.Array (vs ++ map binary_value l)).
Proof.
  revert e vs. induction l as [|u l IH]; intros e vs He; simpl.
  - rewrite app_nil_r. destruct e as [t m]. unfold dmx.setitem. simpl in *.
    f_equal. change (Str.casefold "hidden") with "hidden". by rewrite insert_id.
  - unfold dmx.append_at at 2. change (Str.casefold "hidden") with "hidden".
    rewrite He. rewrite (IH _ (vs ++ [dmx.VBinary (uuid.bytes u)])%list).
    + unfold dmx.setitem. simpl. change (Str.casefold "hidden") with "hidden".
      rewrite insert_insert_eq, <- app_assoc. done.
    + unfold dmx.setitem. simpl. change (Str.casefold "hidden") with "hidden".
      by rewrite lookup_insert_eq.
Qed.

(** The attributes written by [export_dmx]. *)
Lemma export_dmx_members (r : PaletteState) :
  dmx.members (export_dmx r)
  = <["hidden" := dmx.mkAttribute "hidden"
                    (dmx.Array (map binary_value (elements (hidden_defaults r))))]>
    (<["save_settings" := dmx.mkAttribute "save_settings"
                            (dmx.Scalar (dmx.VBool (save_settings r)))]>
    (<["selected" := dmx.mkAttribute "selected"
                       (dmx.Scalar (dmx.VBinary (uuid.bytes (selected r))))]>
       {[ "name" := dmx.mkAttribute "name" (dmx.Scalar (dmx.VString "Palette")) ]})).
Proof.
  unfold export_dmx. rewrite (foldl_append_at _ _ []).
  - unfold dmx.setitem, dmx.new. simpl.
    change (Str.casefold "hidden") with "hidden".
    change (Str.casefold "save_settings") with "save_settings".
    change (Str.casefold "selected") with "selected".
    by rewrite insert_insert_eq.
  - unfold dmx.setitem. simpl. change (Str.casefold "hidden") with "hidden".
    by rewrite lookup_insert_eq.
Qed.

Lemma comprehension_binary_values (l : list UUID) :
  comprehension (fun byt => b ← byt; uuid.of_bytes b)
    (map (dmx.to_binary conv_binary) (map binary_value l)) = Ok l.
Proof.
  induction l as [|u l IH]; [done|].
  cbn [map comprehension binary_value dmx.to_binary mbind result_bind Py.bind].
  rewrite of_bytes_bytes. cbn [Py.bind].
  cbn [map binary_value dmx.to_binary] in IH. rewrite IH. done.
Qed.

(** * Properties of [PaletteState] *)

(** *** Reading back an exported text block *)

Lemma kv1_hidden_export (r : PaletteState) :
  kv1_hidden (export_kv1 r) = Ok (hidden_defaults r).
Proof.
  rewrite export_kv1_block. unfold kv1_hidden.
  cbn [srctools.find_all app List.filter].
  change (srctools.name_is "hidden" (srctools.Leaf "selected" _)) with false.
  change (srctools.name_is "hidden" (srctools.Leaf "save_settings" _)) with false.
  cbn match. rewrite filter_hidden_leaves.
  py_run. rewrite comprehension_hidden_leaves.
  py_run. by rewrite list_to_set_elements_L.
Qed.

Lemma getitem_export_selected (r : PaletteState) :
  srctools.getitem (export_kv1 r) "selected" = Ok (srctools.VStr (uuid.hex (selected r))).
Proof.
  rewrite export_kv1_block. unfold srctools.getitem.
  rewrite last_named_skip; [done|].
  eapply Forall_impl; [apply (hidden_leaves_named "selected")|]. done.
Qed.

Lemma bool_export_save_settings (r : PaletteState) :
  srctools.bool (export_kv1 r) "save_settings" false = Ok (save_settings r).
Proof.
  rewrite export_kv1_block. unfold srctools.bool, srctools.getitem.
  rewrite last_named_skip; cycle 1.
  { eapply Forall_impl; [apply (hidden_leaves_named "save_settings")|]. done. }
  change (srctools.last_named "save_settings" _)
    with (Some (srctools.Leaf "save_settings" (srctools.bool_as_int (save_settings r)))).
  cbn [mbind result_bind Py.bind srctools.value].
  by rewrite lookup_bool_as_int.
Qed.

(** Parsing an exported block gives the record with the two filters
    applied to its hidden set. *)
Lemma parse_kv1_export (r : PaletteState) :
  parse_kv1 (export_kv1 r) 1 = Ok (filtered r).
Proof.
  unfold parse_kv1. cbn [Z.eqb Pos.eqb negb].
  rewrite kv1_hidden_export. py_run.
  unfold kv1_selected. rewrite getitem_export_selected.
  py_run. cbn [UUID_hex]. rewrite of_hex_hex.
  py_run. by rewrite bool_export_save_settings.
Qed.

(** *** Reading back an exported element *)

Lemma getitem_export_dmx_selected (r : PaletteState) :
  dmx.getitem (export_dmx r) "selected"
  = Ok (dmx.mkAttribute "selected" (dmx.Scalar (dmx.VBinary (uuid.bytes (selected r))))).
Proof.
  unfold dmx.getitem. rewrite export_dmx_members.
  change (Str.casefold "selected") with "selected".
  by rewrite !lookup_insert_ne, lookup_insert_eq by done.
Qed.

Lemma getitem_export_dmx_save_settings (r : PaletteState) :
  dmx.getitem (export_dmx r) "save_settings"
  = Ok (dmx.mkAttribute "save_settings" (dmx.Scalar (dmx.VBool (save_settings r)))).
Proof.
  unfold dmx.getitem. rewrite export_dmx_members.
  change (Str.casefold "save_settings") with "save_settings".
  by rewrite lookup_insert_ne, lookup_insert_eq by done.
Qed.

Lemma getitem_export_dmx_hidden (r : PaletteState) :
  dmx.getitem (export_dmx r) "hidden"
  = Ok (dmx.mkAttribute "hidden"
          (dmx.Array (map binary_value (elements (hidden_defaults r))))).
Proof.
  unfold dmx.getitem. rewrite export_dmx_members.
  change (Str.casefold "hidden") with "hidden".
  by rewrite lookup_insert_eq.
Qed.

(** Parsing an exported element, at any version, gives the record with the
    two filters applied to its hidden set. *)
Lemma parse_dmx_export (r : PaletteState) (version : Z) :
  parse_dmx (export_dmx r) version = Ok (filtered r).
Proof.
  unfold parse_dmx, dmx_selected.
  rewrite getitem_export_dmx_selected, getitem_export_dmx_hidden,
    getitem_export_dmx_save_settings.
  cbn [mbind result_bind Py.bind dmx.val_bytes dmx.val_bool dmx.iter_bytes
       dmx.attr_value dmx.to_binary dmx.to_bool].
  rewrite of_bytes_bytes. py_run.
  unfold dmx_hidden. rewrite comprehension_binary_values. py_run.
  by rewrite list_to_set_elements_L.
Qed.

(** The filters do nothing on a record that satisfies the invariants. *)
Lemma filtered_id (r : PaletteState) :
  selected_not_hidden r -> force_shown_not_hidden FORCE_SHOWN r -> filtered r = r.
Proof.
  unfold selected_not_hidden, force_shown_not_hidden.
  destruct r as [sel sav hid]; unfold filtered; simpl. intros Hs Hf. f_equal.
  apply set_eq. intros x. rewrite !elem_of_difference, elem_of_singleton.
  split; [tauto|]. intros Hx. repeat split; [done|by intros ->|].
  intros Hfs. by apply (Hf x).
Qed.

(** *** The decoders only raise [ValueError] *)

Lemma of_int_raises n e : uuid.of_int n = Raise e -> e = ValueError.
Proof. unfold uuid.of_int. destruct (decide _); congruence. Qed.

Lemma int16_raises s e : PyInt.int16 s = Raise e -> e = ValueError.
Proof.
  unfold PyInt.int16. destruct (PyInt.split_sign _) as [sign s1].
  destruct (PyInt.starts_with_underscore _); [congruence|].
  destruct (PyInt.scan_hex _ _ _) as [[n rest]|]; [|congruence].
  destruct (Str.all _ _); congruence.
Qed.

Lemma of_hex_raises s e : uuid.of_hex s = Raise e -> e = ValueError.
Proof.
  unfold uuid.of_hex. destruct (negb _); [congruence|].
  destruct (PyInt.int16 _) as [n|e'] eqn:E; py_run.
  - apply of_int_raises.
  - intros [= <-]. by apply int16_raises in E.
Qed.

Lemma of_bytes_raises b e : uuid.of_bytes b = Raise e -> e = ValueError.
Proof. unfold uuid.of_bytes. destruct (negb _); [congruence|]. apply of_int_raises. Qed.

(** *** The invariants of ingested records *)

(** C1. Every record produced by one of the three ingestion paths,
    [parse_kv1], [parse_dmx] or [parse_legacy], does not hide its selected
    identifier and hides no force-shown identifier. *)
Theorem ingested_invariants (r : PaletteState) :
  ingested r -> selected_not_hidden r /\ force_shown_not_hidden FORCE_SHOWN r.
Proof.
  unfold selected_not_hidden, force_shown_not_hidden.
  intros [data version r' H | data version r' H | L conf m key r' H Hm].
  - unfold parse_kv1 in H. destruct (negb _); [done|].
    do 3 step_bind H. injection H as <-. simpl. set_solver.
  - unfold parse_dmx in H. do 4 step_bind H. injection H as <-. simpl.
    destruct (_ ≫= _) as [hidden_arr|e] in E0.
    + step_bind E0. injection E0 as <-. set_solver.
    + destruct (is_KeyError e); [|done]. injection E0 as <-. set_solver.
  - unfold parse_legacy in H. step_bind H. injection H as <-.
    apply lookup_singleton_Some in Hm as [_ <-]. simpl. set_solver.
Qed.

(** *** Round trips *)

(** C2, amended. For every record that satisfies the two invariants,
    parsing its exported text form at version 1 returns the record. *)
Theorem parse_kv1_export_roundtrip (r : PaletteState) :
  selected_not_hidden r -> force_shown_not_hidden FORCE_SHOWN r ->
  parse_kv1 (export_kv1 r) 1 = Ok r.
Proof. intros Hs Hf. by rewrite parse_kv1_export, filtered_id. Qed.

(** C3, amended. For every record that satisfies the two invariants,
    parsing its exported binary form at version 1 returns the record. *)
Theorem parse_dmx_export_roundtrip (r : PaletteState) :
  selected_not_hidden r -> force_shown_not_hidden FORCE_SHOWN r ->
  parse_dmx (export_dmx r) 1 = Ok r.
Proof. intros Hs Hf. by rewrite parse_dmx_export, filtered_id. Qed.

(** *** The version gate *)

(** The text parser rejects every version but 1, before reading anything. *)
Lemma parse_kv1_rejects_other_version data version :
  version <> 1 -> parse_kv1 data version = Raise AssertionError.
Proof. intros H. unfold parse_kv1. by apply Z.eqb_neq in H as ->. Qed.

(** The binary parser does not look at the version. *)
Lemma parse_dmx_any_version data v1 v2 : parse_dmx data v1 = parse_dmx data v2.
Proof. reflexivity. Qed.

(** C4. The binary parser, asked for version 2, parses the exported default
    record instead of failing with a version mismatch. *)
Theorem parse_dmx_accepts_version_2 :
  parse_dmx (export_dmx PaletteState_default) 2 = Ok PaletteState_default.
Proof.
  rewrite parse_dmx_export. unfold filtered, PaletteState_default. simpl.
  f_equal. f_equal. set_solver.
Qed.

(** *** Missing binary attributes *)

(** C5. An element with [selected] and [hidden] but without
    [save_settings] makes the binary parser raise [KeyError]; no default is
    substituted for that attribute. *)
Theorem parse_dmx_missing_save_settings (u : UUID) :
  parse_dmx (palette_without_save_settings u) 1 = Raise KeyError.
Proof.
  unfold parse_dmx, dmx_selected, palette_without_save_settings.
  unfold dmx.getitem, dmx.setitem, dmx.new. simpl.
  change (Str.casefold "selected") with "selected".
  change (Str.casefold "hidden") with "hidden".
  change (Str.casefold "save_settings") with "save_settings".
  rewrite lookup_insert_eq.
  rewrite (lookup_insert_ne _ "hidden" "selected"), lookup_insert_eq by done.
  rewrite (lookup_insert_ne _ "hidden" "save_settings") by done.
  rewrite (lookup_insert_ne _ "selected" "save_settings"), lookup_singleton_ne by done.
  py_run. cbn [dmx.val_bytes dmx.attr_value dmx.to_binary].
  py_run. rewrite of_bytes_bytes. reflexivity.
Qed.

(** C8. An element with [selected] only, hence without [hidden], makes the
    binary parser raise [KeyError] (from the [save_settings] lookup)
    instead of returning a record with an empty hidden set. *)
Theorem parse_dmx_only_selected (u : UUID) :
  parse_dmx (palette_only_selected u) 1 = Raise KeyError.
Proof.
  unfold parse_dmx, dmx_selected, palette_only_selected.
  unfold dmx.getitem, dmx.setitem, dmx.new. simpl.
  change (Str.casefold "selected") with "selected".
  change (Str.casefold "hidden") with "hidden".
  change (Str.casefold "save_settings") with "save_settings".
  rewrite lookup_insert_eq.
  rewrite (lookup_insert_ne _ "selected" "hidden"), lookup_singleton_ne by done.
  rewrite (lookup_insert_ne _ "selected" "save_settings"), lookup_singleton_ne by done.
  py_run. cbn [dmx.val_bytes dmx.attr_value dmx.to_binary].
  py_run. rewrite of_bytes_bytes. reflexivity.
Qed.

(** The handler for a missing [hidden] attribute itself works: whenever
    [save_settings] can be read, the parser goes on with an empty hidden
    set. *)
Lemma parse_dmx_absent_hidden data version a save :
  dmx.getitem data "hidden" = Raise KeyError ->
  dmx.getitem data "save_settings" = Ok a ->
  dmx.val_bool conv_bool a = Ok save ->
  parse_dmx data version
  = (uuid ← try_except (dmx_selected data) catches_lookup_or_value (Ok UUID_PORTAL2);
     Ok (mkPaletteState uuid save ∅)).
Proof.
  intros Hh Ha Hs. unfold parse_dmx. rewrite Hh, Ha. py_run. rewrite Hs.
  by destruct (try_except _ _ _).
Qed.

(** The same at a concrete element. *)
Lemma parse_dmx_without_hidden (u : UUID) (save : bool) version :
  parse_dmx (palette_without_hidden u save) version = Ok (mkPaletteState u save ∅).
Proof.
  unfold parse_dmx, dmx_selected, palette_without_hidden, palette_only_selected.
  unfold dmx.getitem, dmx.setitem, dmx.new. simpl.
  change (Str.casefold "selected") with "selected".
  change (Str.casefold "hidden") with "hidden".
  change (Str.casefold "save_settings") with "save_settings".
  rewrite lookup_insert_eq.
  rewrite (lookup_insert_ne _ "save_settings" "selected"), lookup_insert_eq by done.
  rewrite (lookup_insert_ne _ "save_settings" "hidden") by done.
  rewrite (lookup_insert_ne _ "selected" "hidden"), lookup_singleton_ne by done.
  py_run. cbn [dmx.val_bytes dmx.attr_value dmx.to_binary].
  py_run. rewrite of_bytes_bytes. reflexivity.
Qed.

(** *** The legacy migration *)

(** C6. [parse_legacy] never fails and always returns exactly one entry,
    under the empty sub-key; on an empty legacy source, and on one with an
    empty [palette_uuid] and no [palette_save_settings], that entry is the
    default record. *)
Theorem parse_legacy_defaults :
  (forall L conf, exists r,
      parse_legacy L conf = Ok ({[ "" := r ]} : gmap string PaletteState))
  /\ (forall conf, parse_legacy ∅ conf = Ok {[ "" := PaletteState_default ]})
  /\ (forall L conf,
        BEE2_config.read L "Last_Selected" "palette_uuid" = Some "" ->
        BEE2_config.read L "General" "palette_save_settings" = None ->
        parse_legacy L conf = Ok {[ "" := PaletteState_default ]}).
Proof.
  split; [|split].
  - intros L conf. unfold parse_legacy.
    destruct (uuid.of_hex _) as [u|e] eqn:E; py_run.
    + by eexists.
    + apply of_hex_raises in E as ->. by eexists.
  - intros conf. reflexivity.
  - intros L conf Hu Hs. unfold parse_legacy, BEE2_config.get_bool, BEE2_config.get_val.
    rewrite Hu, Hs. reflexivity.
Qed.

(** C10. The result of [parse_legacy] does not depend on the property
    block it is given: for a fixed legacy configuration any two blocks give
    the same result. *)
Theorem parse_legacy_ignores_conf (L : BEE2_config.ConfigFile) (p q : srctools.Property) :
  parse_legacy L p = parse_legacy L q.
Proof. reflexivity. Qed.

(** *** The fallback for [selected] *)

(** In the text parser every failure of the read of [selected] is of a
    class that the [except] clause names: a leaf cannot be indexed
    ([ValueError]), a block without a leaf named [selected] raises
    [NoKeyError], and a string that does not decode raises [ValueError]. *)
Lemma kv1_selected_raises data e :
  kv1_selected data = Raise e -> catches_lookup_or_value e = true.
Proof.
  unfold kv1_selected, srctools.getitem. destruct data as [n v|n ch].
  - by intros [= <-].
  - destruct (srctools.last_named "selected" ch) as [p|] eqn:E; py_run.
    + apply last_named_leaf in E as (n' & v & -> & _).
      cbn [srctools.value UUID_hex]. by intros ->%of_hex_raises.
    + by intros [= <-].
Qed.

(** The two ways in which the read fails on a block. *)
Lemma kv1_selected_bad_iff n ch :
  kv1_selected_bad (srctools.Block n ch)
  <-> exists e, kv1_selected (srctools.Block n ch) = Raise e.
Proof.
  unfold kv1_selected_bad, kv1_selected, srctools.getitem. split.
  - intros [H | (s & H & Hs)]; rewrite H; py_run; [by eexists|].
    cbn [UUID_hex]. rewrite Hs. by eexists.
  - intros [e H].
    destruct (srctools.last_named "selected" ch) as [p|] eqn:E; [|by left].
    right. apply last_named_leaf in E as (n' & v & -> & _).
    py_run in H. cbn [srctools.value UUID_hex] in H.
    exists v. split; [done|]. by rewrite H, (of_hex_raises _ _ H).
Qed.

(** Each of the three ways of [dmx_selected_bad] is a failure that the
    [except] clause names. *)
Lemma dmx_selected_bad_raises data :
  dmx_selected_bad data ->
  exists e, dmx_selected data = Raise e /\ catches_lookup_or_value e = true.
Proof.
  unfold dmx_selected.
  intros [H | (a & H & [Ha | (b & Ha & Hb)])]; rewrite H; py_run.
  - by exists KeyError.
  - rewrite Ha. by exists ValueError.
  - rewrite Ha. py_run. rewrite Hb. by exists ValueError.
Qed.

Lemma getitem_setitem_other elem k v k' :
  Str.casefold k <> Str.casefold k' ->
  dmx.getitem (dmx.setitem elem k v) k' = dmx.getitem elem k'.
Proof. intros H. unfold dmx.getitem, dmx.setitem. simpl. by rewrite lookup_insert_ne. Qed.

(** C7, amended. When the read of [selected] fails in the text parser (no
    leaf named [selected], or one whose string does not decode), or fails
    in the binary parser with a [LookupError] or a [ValueError] (no such
    attribute, an array, bytes that do not decode, a conversion that raises
    one of the two), the parser behaves exactly as on the same input with
    [selected] set to the encoded default identifier, and a record it
    returns has the default identifier as its selection. *)
Theorem selected_fallback :
  (forall data e, kv1_selected data = Raise e ->
      parse_kv1 data 1
      = parse_kv1
          (srctools.append data (srctools.Leaf "selected" (uuid.hex UUID_PORTAL2))) 1
      /\ forall r, parse_kv1 data 1 = Ok r -> selected r = UUID_PORTAL2)
  /\ (forall data e, dmx_selected data = Raise e ->
        catches_lookup_or_value e = true ->
        parse_dmx data 1
        = parse_dmx
            (dmx.setitem data "selected"
               (dmx.Scalar (dmx.VBinary (uuid.bytes UUID_PORTAL2)))) 1
        /\ forall r, parse_dmx data 1 = Ok r -> selected r = UUID_PORTAL2).
Proof.
  split.
  - intros data e He.
    assert (try_except (kv1_selected data) catches_lookup_or_value (Ok UUID_PORTAL2)
            = Ok UUID_PORTAL2) as Hc.
    { rewrite He. py_run. by rewrite (kv1_selected_raises _ _ He). }
    split.
    + destruct data as [n v|n ch]; [done|].
      unfold parse_kv1. cbn [Z.eqb Pos.eqb negb]. rewrite Hc.
      cbn [srctools.append].
      assert (kv1_hidden (srctools.Block n (ch ++ [srctools.Leaf "selected" (uuid.hex UUID_PORTAL2)]))
              = kv1_hidden (srctools.Block n ch)) as ->.
      { unfold kv1_hidden, srctools.find_all. rewrite List.filter_app. cbn [List.filter].
        change (srctools.name_is "hidden" (srctools.Leaf "selected" _)) with false.
        cbn match. by rewrite app_nil_r. }
      assert (kv1_selected (srctools.Block n (ch ++ [srctools.Leaf "selected" (uuid.hex UUID_PORTAL2)]))
              = Ok UUID_PORTAL2) as ->.
      { unfold kv1_selected, srctools.getitem. rewrite last_named_last by done.
        py_run. cbn [srctools.value UUID_hex]. apply of_hex_hex. }
      assert (srctools.bool (srctools.Block n (ch ++ [srctools.Leaf "selected" (uuid.hex UUID_PORTAL2)]))
                "save_settings" false
              = srctools.bool (srctools.Block n ch) "save_settings" false) as ->.
      { unfold srctools.bool, srctools.getitem. rewrite last_named_skip; [done|].
        by repeat constructor. }
      done.
    + intros r H. unfold parse_kv1 in H. cbn [Z.eqb Pos.eqb negb] in H.
      rewrite Hc in H. step_bind H. py_run in H. step_bind H. by injection H as <-.
  - intros data e He Hcaught.
    assert (try_except (dmx_selected data) catches_lookup_or_value (Ok UUID_PORTAL2)
            = Ok UUID_PORTAL2) as Hc.
    { rewrite He. py_run. by rewrite Hcaught. }
    split.
    + unfold parse_dmx. rewrite Hc.
      rewrite !getitem_setitem_other by done.
      assert (dmx_selected (dmx.setitem data "selected"
                              (dmx.Scalar (dmx.VBinary (uuid.bytes UUID_PORTAL2))))
              = Ok UUID_PORTAL2) as ->; [|done].
      unfold dmx_selected, dmx.getitem, dmx.setitem. simpl.
      rewrite lookup_insert_eq. py_run.
      cbn [dmx.val_bytes dmx.attr_value dmx.to_binary]. py_run. apply of_bytes_bytes.
    + intros r H. unfold parse_dmx in H. rewrite Hc in H. py_run in H.
      do 3 step_bind H. by injection H as <-.
Qed.

(** An exception of another class raised while [selected] is read passes
    through the [try] of the binary parser. *)
Lemma parse_dmx_selected_uncaught data version e :
  dmx_selected data = Raise e ->
  catches_lookup_or_value e = false ->
  parse_dmx data version = Raise e.
Proof. intros He Hc. unfold parse_dmx. rewrite He. py_run. by rewrite Hc. Qed.

(** *** Where the removal happens *)

(** C9, amended. The constructor stores the hidden set as it is given;
    the selected and the force-shown identifiers are removed by the two
    parsers, from the set of identifiers they decoded. *)
Theorem removal_only_in_parsers :
  (forall sel sav hid, hidden_defaults (mkPaletteState sel sav hid) = hid)
  /\ (forall data version r, parse_kv1 data version = Ok r ->
        exists h, kv1_hidden data = Ok h
                  /\ hidden_defaults r = h ∖ {[ selected r ]} ∖ FORCE_SHOWN)
  /\ (forall data version r, parse_dmx data version = Ok r ->
        (dmx.getitem data "hidden" = Raise KeyError /\ hidden_defaults r = ∅)
        \/ exists a h,
             dmx.getitem data "hidden" = Ok a
             /\ dmx_hidden (dmx.iter_bytes conv_binary a) = Ok h
             /\ hidden_defaults r = h ∖ {[ selected r ]} ∖ FORCE_SHOWN).
Proof.
  split; [done|]. split.
  - intros data version r H. unfold parse_kv1 in H. destruct (negb _); [done|].
    do 3 step_bind H. injection H as <-. by eexists.
  - intros data version r H. unfold parse_dmx in H. do 4 step_bind H.
    injection H as <-. simpl.
    unfold dmx.getitem in *. destruct (dmx.members data !! _) as [attr|]; py_run in E0.
    + right. step_bind E0. injection E0 as <-. by eexists _, _.
    + left. cbn in E0. by injection E0 as <-.
Qed.

(** * Further properties of [PaletteState] *)

(** *** Comprehensions *)

Lemma comprehension_snoc {A B} (f : A -> result B) xs x ys y :
  comprehension f xs = Ok ys -> f x = Ok y ->
  comprehension f (xs ++ [x]) = Ok (ys ++ [y])%list.
Proof.
  revert ys. induction xs as [|x0 xs IH]; intros ys Hxs Hx; simpl in *.
  - injection Hxs as <-. by rewrite Hx.
  - destruct (f x0) as [y0|]; [|done]. simpl in *.
    destruct (comprehension f xs) as [ys0|]; [|done]. simpl in *.
    injection Hxs as <-. by rewrite (IH ys0).
Qed.

Lemma comprehension_ok_all {A B} (f : A -> result B) xs ys :
  comprehension f xs = Ok ys -> Forall (fun x => exists y, f x = Ok y) xs.
Proof.
  revert ys. induction xs as [|x xs IH]; intros ys H; simpl in *; [constructor|].
  destruct (f x) as [y|] eqn:Hx; [|done]. simpl in H.
  destruct (comprehension f xs) as [ys0|]; [|done].
  constructor; [by exists y|]. by apply (IH ys0).
Qed.

(** When every failure is the same exception and some element fails, the
    comprehension raises that exception. *)
Lemma comprehension_raises {A B} (f : A -> result B) (E : exn) xs :
  Forall (fun x => forall e, f x = Raise e -> e = E) xs ->
  Exists (fun x => exists e, f x = Raise e) xs ->
  comprehension f xs = Raise E.
Proof.
  induction 1 as [|x xs Hx Hxs IH]; intros Hex; [by apply Exists_nil in Hex|].
  simpl. destruct (f x) as [y|e] eqn:Hfx; simpl.
  - apply Exists_cons in Hex as [[e He]|Hex]; [congruence|].
    by rewrite IH.
  - by rewrite (Hx e).
Qed.

Lemma find_app_or {A} (p : A -> Datatypes.bool) l1 l2 :
  List.find p (l1 ++ l2)
  = match List.find p l1 with Some x => Some x | None => List.find p l2 end.
Proof. induction l1 as [|x l1 IH]; simpl; [done|]. by destruct (p x). Qed.

(** *** Blocks and elements with the hidden identifiers in any order *)

Lemma hidden_leaves_not_named key (l : list UUID) :
  srctools.name_is key (srctools.Leaf "hidden" "") = false ->
  Forall (fun p => srctools.name_is key p = false) (map hidden_leaf l).
Proof. intros H. apply Forall_map, Forall_forall. intros u _. exact H. Qed.

Lemma export_kv1_in_elements (r : PaletteState) :
  export_kv1 r = export_kv1_in (elements (hidden_defaults r)) r.
Proof. reflexivity. Qed.

Lemma export_dmx_in_elements (r : PaletteState) :
  export_dmx r = export_dmx_in (elements (hidden_defaults r)) r.
Proof. reflexivity. Qed.

Lemma export_kv1_in_block (order : list UUID) (r : PaletteState) :
  export_kv1_in order r
  = srctools.Block ""
      ([ srctools.Leaf "selected" (uuid.hex (selected r));
         srctools.Leaf "save_settings" (srctools.bool_as_int (save_settings r)) ]
       ++ map hidden_leaf order).
Proof. unfold export_kv1_in. apply foldl_append_hidden. Qed.

Lemma parse_kv1_export_in (order : list UUID) (r : PaletteState) :
  parse_kv1 (export_kv1_in order r) 1
  = Ok (mkPaletteState (selected r) (save_settings r)
          (list_to_set order ∖ {[ selected r ]} ∖ FORCE_SHOWN)).
Proof.
  rewrite export_kv1_in_block. unfold parse_kv1. cbn [Z.eqb Pos.eqb negb].
  assert (kv1_hidden
            (srctools.Block ""
               ([ srctools.Leaf "selected" (uuid.hex (selected r));
                  srctools.Leaf "save_settings" (srctools.bool_as_int (save_settings r)) ]
                ++ map hidden_leaf order))
          = Ok (list_to_set order)) as ->.
  { unfold kv1_hidden. cbn [srctools.find_all app List.filter].
    change (srctools.name_is "hidden" (srctools.Leaf "selected" _)) with false.
    change (srctools.name_is "hidden" (srctools.Leaf "save_settings" _)) with false.
    cbn match. rewrite filter_hidden_leaves. py_run.
    by rewrite comprehension_hidden_leaves. }
  py_run. unfold kv1_selected, srctools.bool, srctools.getitem.
  rewrite !last_named_skip by by apply hidden_leaves_not_named.
  change (srctools.last_named "selected" _)
    with (Some (srctools.Leaf "selected" (uuid.hex (selected r)))).
  change (srctools.last_named "save_settings" _)
    with (Some (srctools.Leaf "save_settings" (srctools.bool_as_int (save_settings r)))).
  py_run. cbn [srctools.value UUID_hex]. rewrite of_hex_hex. py_run.
  by rewrite lookup_bool_as_int.
Qed.

Lemma export_dmx_in_members (order : list UUID) (r : PaletteState) :
  dmx.members (export_dmx_in order r)
  = <["hidden" := dmx.mkAttribute "hidden" (dmx.Array (map binary_value order))]>
    (<["save_settings" := dmx.mkAttribute "save_settings"
                            (dmx.Scalar (dmx.VBool (save_settings r)))]>
    (<["selected" := dmx.mkAttribute "selected"
                       (dmx.Scalar (dmx.VBinary (uuid.bytes (selected r))))]>
       {[ "name" := dmx.mkAttribute "name" (dmx.Scalar (dmx.VString "Palette")) ]})).
Proof.
  unfold export_dmx_in. rewrite (foldl_append_at _ _ []).
  - unfold dmx.setitem, dmx.new. simpl.
    change (Str.casefold "hidden") with "hidden".
    change (Str.casefold "save_settings") with "save_settings".
    change (Str.casefold "selected") with "selected".
    by rewrite insert_insert_eq.
  - unfold dmx.setitem. simpl. change (Str.casefold "hidden") with "hidden".
    by rewrite lookup_insert_eq.
Qed.

Lemma parse_dmx_export_in (order : list UUID) (r : PaletteState) (version : Z) :
  parse_dmx (export_dmx_in order r) version
  = Ok (mkPaletteState (selected r) (save_settings r)
          (list_to_set order ∖ {[ selected r ]} ∖ FORCE_SHOWN)).
Proof.
  unfold parse_dmx, dmx_selected, dmx.getitem. rewrite export_dmx_in_members.
  change (Str.casefold "hidden") with "hidden".
  change (Str.casefold "save_settings") with "save_settings".
  change (Str.casefold "selected") with "selected".
  rewrite lookup_insert_eq.
  rewrite (lookup_insert_ne _ "hidden" "selected"),
    (lookup_insert_ne _ "save_settings" "selected"), lookup_insert_eq by done.
  rewrite (lookup_insert_ne _ "hidden" "save_settings"), lookup_insert_eq by done.
  cbn [mbind result_bind Py.bind dmx.val_bytes dmx.val_bool dmx.iter_bytes
       dmx.attr_value dmx.to_binary dmx.to_bool].
  rewrite of_bytes_bytes. py_run.
  unfold dmx_hidden. by rewrite comprehension_binary_values.
Qed.

Lemma filtered_invariants (r : PaletteState) :
  selected_not_hidden (filtered r) /\ force_shown_not_hidden FORCE_SHOWN (filtered r).
Proof.
  unfold selected_not_hidden, force_shown_not_hidden, filtered. simpl.
  split; [|intros u Hu]; rewrite !elem_of_difference, elem_of_singleton; tauto.
Qed.

Lemma filtered_idem (r : PaletteState) : filtered (filtered r) = filtered r.
Proof. destruct (filtered_invariants r). by apply filtered_id. Qed.

(** *** One round trip repairs a record *)

(** X1. For every record, also one that breaks the invariants, parsing its
    exported text form succeeds and returns the record with the selected
    and the force-shown identifiers taken out of the hidden set; that result
    satisfies both invariants and a further round trip leaves it as it is. *)
Theorem kv1_roundtrip_repairs (r : PaletteState) :
  parse_kv1 (export_kv1 r) 1 = Ok (filtered r)
  /\ selected_not_hidden (filtered r)
  /\ force_shown_not_hidden FORCE_SHOWN (filtered r)
  /\ parse_kv1 (export_kv1 (filtered r)) 1 = Ok (filtered r).
Proof.
  destruct (filtered_invariants r) as [Hs Hf].
  split; [apply parse_kv1_export|]. split; [exact Hs|]. split; [exact Hf|].
  by rewrite parse_kv1_export, filtered_idem.
Qed.

(** X2. The same for the binary form, at whatever version is passed. *)
Theorem dmx_roundtrip_repairs (r : PaletteState) (v1 v2 : Z) :
  parse_dmx (export_dmx r) v1 = Ok (filtered r)
  /\ selected_not_hidden (filtered r)
  /\ force_shown_not_hidden FORCE_SHOWN (filtered r)
  /\ parse_dmx (export_dmx (filtered r)) v2 = Ok (filtered r).
Proof.
  destruct (filtered_invariants r) as [Hs Hf].
  split; [apply parse_dmx_export|]. split; [exact Hs|]. split; [exact Hf|].
  by rewrite parse_dmx_export, filtered_idem.
Qed.

(** *** The iteration order of the hidden set does not matter *)

(** X4. Whatever order the exporter's loop visits the hidden identifiers in,
    the text block it writes parses to the same record as [export_kv1]'s. *)
Theorem kv1_roundtrip_any_order (r : PaletteState) (order : list UUID) :
  order ≡ₚ elements (hidden_defaults r) ->
  parse_kv1 (export_kv1_in order r) 1 = parse_kv1 (export_kv1 r) 1
  /\ parse_kv1 (export_kv1_in order r) 1 = Ok (filtered r).
Proof.
  intros Hp. rewrite parse_kv1_export, parse_kv1_export_in.
  assert (list_to_set order = hidden_defaults r) as ->; [|done].
  rewrite <- (list_to_set_elements_L (hidden_defaults r)).
  apply set_eq. intros x. by rewrite !elem_of_list_to_set, Hp.
Qed.

(** X5. The same for the binary element. *)
Theorem dmx_roundtrip_any_order (r : PaletteState) (order : list UUID) (version : Z) :
  order ≡ₚ elements (hidden_defaults r) ->
  parse_dmx (export_dmx_in order r) version = parse_dmx (export_dmx r) version
  /\ parse_dmx (export_dmx_in order r) version = Ok (filtered r).
Proof.
  intros Hp. rewrite parse_dmx_export, parse_dmx_export_in.
  assert (list_to_set order = hidden_defaults r) as ->; [|done].
  rewrite <- (list_to_set_elements_L (hidden_defaults r)).
  apply set_eq. intros x. by rewrite !elem_of_list_to_set, Hp.
Qed.

(** *** Loading, saving and loading again *)

Lemma ingested_filtered (r : PaletteState) : ingested r -> filtered r = r.
Proof.
  intros H. apply filtered_id; unfold selected_not_hidden, force_shown_not_hidden;
    destruct H as [data version r H | data version r H | L conf m key r H Hm].
  - unfold parse_kv1 in H. destruct (negb _); [done|].
    do 3 step_bind H. injection H as <-. simpl. set_solver.
  - unfold parse_dmx in H. do 4 step_bind H. injection H as <-. simpl.
    destruct (_ ≫= _) as [hidden_arr|e] in E0.
    + step_bind E0. injection E0 as <-. set_solver.
    + destruct (is_KeyError e); [|done]. injection E0 as <-. set_solver.
  - unfold parse_legacy in H. step_bind H. injection H as <-.
    apply lookup_singleton_Some in Hm as [_ <-]. simpl. set_solver.
  - unfold parse_kv1 in H. destruct (negb _); [done|].
    do 3 step_bind H. injection H as <-. simpl. set_solver.
  - unfold parse_dmx in H. do 4 step_bind H. injection H as <-. simpl.
    destruct (_ ≫= _) as [hidden_arr|e] in E0.
    + step_bind E0. injection E0 as <-. set_solver.
    + destruct (is_KeyError e); [|done]. injection E0 as <-. set_solver.
  - unfold parse_legacy in H. step_bind H. injection H as <-.
    apply lookup_singleton_Some in Hm as [_ <-]. simpl. set_solver.
Qed.

(** X3. A record that was produced by any of the three ingestion paths is
    returned unchanged when it is exported and parsed again, in the text
    form and in the binary form. *)
Theorem ingested_reload_stable (r : PaletteState) :
  ingested r ->
  parse_kv1 (export_kv1 r) 1 = Ok r
  /\ forall version, parse_dmx (export_dmx r) version = Ok r.
Proof.
  intros H%ingested_filtered. split; [|intros version].
  - by rewrite parse_kv1_export, H.
  - by rewrite parse_dmx_export, H.
Qed.

(** *** A malformed hidden entry is not recovered *)

Lemma In_filter_name key p ch :
  In p ch -> srctools.name_is key p = true -> In p (List.filter (srctools.name_is key) ch).
Proof. intros. by apply List.filter_In. Qed.

(** X6. In a text block whose [hidden] children all hold strings, one
    [hidden] string that is not an identifier makes [parse_kv1] raise
    [ValueError]: the fallback that exists for [selected] does not exist
    for hidden entries. *)
Theorem parse_kv1_malformed_hidden name (ch : list srctools.Property) :
  hidden_are_leaves ch -> Exists malformed_hidden ch ->
  parse_kv1 (srctools.Block name ch) 1 = Raise ValueError.
Proof.
  intros Hleaves Hbad. unfold parse_kv1. cbn [Z.eqb Pos.eqb negb].
  unfold kv1_hidden. cbn [srctools.find_all]. py_run.
  rewrite (comprehension_raises _ ValueError); [done| |].
  - apply List.Forall_forall. intros p [Hp Hn]%List.filter_In e.
    pose proof (proj1 (List.Forall_forall _ _) Hleaves p Hp Hn) as (n & v & ->).
    cbn [srctools.value UUID_hex]. apply of_hex_raises.
  - apply List.Exists_exists in Hbad as (p & Hp & Hn & n & v & -> & Hv).
    apply List.Exists_exists. exists (srctools.Leaf n v).
    split; [by apply In_filter_name|]. by exists ValueError.
Qed.

(** X7. When the [hidden] attribute of a binary element is an array that
    holds a byte string whose length is not 16, [parse_dmx] returns no
    record: it raises. *)
Theorem parse_dmx_malformed_hidden (data : dmx.Element) (version : Z) a vs b :
  dmx.getitem data "hidden" = Ok a ->
  dmx.attr_value a = dmx.Array vs ->
  In (dmx.VBinary b) vs ->
  length b <> 16%nat ->
  exists e, parse_dmx data version = Raise e.
Proof.
  intros Ha Hvs Hb Hlen. unfold parse_dmx.
  destruct (try_except _ _ _) as [u|e]; [|by eexists]. py_run.
  rewrite Ha. py_run. unfold dmx.iter_bytes. rewrite Hvs. unfold dmx_hidden.
  destruct (comprehension _ _) as [ids|e] eqn:E; [|by eexists].
  apply comprehension_ok_all in E.
  pose proof (proj1 (List.Forall_forall _ _) E (Ok b)) as [y Hy].
  { apply List.in_map_iff. by exists (dmx.VBinary b). }
  py_run in Hy. unfold uuid.of_bytes in Hy.
  apply Nat.eqb_neq in Hlen. by rewrite Hlen in Hy.
Qed.

(** *** The exporters lose nothing *)

Lemma hex_inj (u1 u2 : UUID) : uuid.hex u1 = uuid.hex u2 -> u1 = u2.
Proof.
  intros H. apply (f_equal uuid.of_hex) in H. rewrite !of_hex_hex in H. congruence.
Qed.

Lemma bytes_inj (u1 u2 : UUID) : uuid.bytes u1 = uuid.bytes u2 -> u1 = u2.
Proof.
  intros H. apply (f_equal uuid.of_bytes) in H. rewrite !of_bytes_bytes in H. congruence.
Qed.

Lemma bool_as_int_inj b1 b2 : srctools.bool_as_int b1 = srctools.bool_as_int b2 -> b1 = b2.
Proof. by destruct b1, b2. Qed.

Lemma elements_inj (s1 s2 : gset UUID) : elements s1 = elements s2 -> s1 = s2.
Proof.
  intros H. by rewrite <- (list_to_set_elements_L s1), <- (list_to_set_elements_L s2), H.
Qed.

Lemma kv1_selected_export (r : PaletteState) :
  kv1_selected (export_kv1 r) = Ok (selected r).
Proof.
  unfold kv1_selected. rewrite getitem_export_selected. py_run.
  cbn [UUID_hex]. apply of_hex_hex.
Qed.

(** X8. [export_kv1] is injective: two records with the same text form are
    the same record. *)
Theorem export_kv1_injective (r1 r2 : PaletteState) :
  export_kv1 r1 = export_kv1 r2 -> r1 = r2.
Proof.
  intros H.
  pose proof (f_equal kv1_selected H) as Hsel.
  pose proof (f_equal (fun p => srctools.bool p "save_settings" false) H) as Hsav.
  pose proof (f_equal kv1_hidden H) as Hhid.
  cbv beta in *.
  rewrite !kv1_selected_export in Hsel.
  rewrite !bool_export_save_settings in Hsav.
  rewrite !kv1_hidden_export in Hhid.
  destruct r1, r2; simpl in *. congruence.
Qed.

Lemma binary_values_inj (l1 l2 : list UUID) :
  map binary_value l1 = map binary_value l2 -> l1 = l2.
Proof.
  revert l2. induction l1 as [|u1 l1 IH]; intros [|u2 l2] H; try done.
  pose proof (f_equal (@List.tl _) H) as Hl.
  pose proof (f_equal (fun l => match l with
                                | dmx.VBinary b :: _ => b
                                | _ => []
                                end) H) as Hu.
  cbn [map List.tl binary_value] in Hl, Hu.
  apply bytes_inj in Hu as ->. by rewrite (IH l2).
Qed.

(** X9. [export_dmx] is injective: two records with the same binary form
    are the same record. *)
Theorem export_dmx_injective (r1 r2 : PaletteState) :
  export_dmx r1 = export_dmx r2 -> r1 = r2.
Proof.
  intros H.
  pose proof (f_equal (fun e => dmx.getitem e "selected") H) as Hsel.
  pose proof (f_equal (fun e => dmx.getitem e "save_settings") H) as Hsav.
  pose proof (f_equal (fun e => dmx.getitem e "hidden") H) as Hhid.
  cbv beta in *.
  rewrite !getitem_export_dmx_selected in Hsel.
  rewrite !getitem_export_dmx_save_settings in Hsav.
  rewrite !getitem_export_dmx_hidden in Hhid.
  apply (f_equal (fun m => match m with
                           | Ok (dmx.mkAttribute _ (dmx.Scalar (dmx.VBinary b))) => b
                           | _ => []
                           end)) in Hsel.
  apply (f_equal (fun m => match m with
                           | Ok (dmx.mkAttribute _ (dmx.Scalar (dmx.VBool b))) => b
                           | _ => false
                           end)) in Hsav.
  apply (f_equal (fun m => match m with
                           | Ok (dmx.mkAttribute _ (dmx.Array vs)) => vs
                           | _ => []
                           end)) in Hhid.
  cbv beta iota in Hsel, Hsav, Hhid.
  apply bytes_inj in Hsel. apply binary_values_inj, elements_inj in Hhid.
  destruct r1, r2; simpl in *. congruence.
Qed.

(** *** What the exporters write *)

Lemma hex_canonical (u : UUID) : canonical_hex (uuid.hex u).
Proof. split; [apply hex_length | apply hex_all_lower]. Qed.

(** X10. The text block written by [export_kv1] has exactly one [selected]
    child, exactly one [save_settings] child holding ["0"] or ["1"], and
    exactly one [hidden] child for each hidden identifier: its [hidden]
    children are the leaves of an enumeration without repetition of
    [hidden_defaults], so no identifier is written twice and none is left
    out.  Every identifier is written as 32 lower-case hexadecimal
    digits. *)
Theorem export_kv1_format (r : PaletteState) :
  srctools.find_all (export_kv1 r) "selected"
  = Ok [srctools.Leaf "selected" (uuid.hex (selected r))]
  /\ canonical_hex (uuid.hex (selected r))
  /\ srctools.find_all (export_kv1 r) "save_settings"
     = Ok [srctools.Leaf "save_settings" (if save_settings r then "1" else "0")]
  /\ exists order : list UUID,
       NoDup order
       /\ (forall u, u ∈ order <-> u ∈ hidden_defaults r)
       /\ length order = size (hidden_defaults r)
       /\ srctools.find_all (export_kv1 r) "hidden"
          = Ok (map (fun u => srctools.Leaf "hidden" (uuid.hex u)) order)
       /\ Forall (fun u => canonical_hex (uuid.hex u)) order.
Proof.
  rewrite export_kv1_block. cbn [srctools.find_all app List.filter].
  change (srctools.name_is "selected" (srctools.Leaf "selected" _)) with true.
  change (srctools.name_is "selected" (srctools.Leaf "save_settings" _)) with false.
  change (srctools.name_is "save_settings" (srctools.Leaf "selected" _)) with false.
  change (srctools.name_is "save_settings" (srctools.Leaf "save_settings" _)) with true.
  change (srctools.name_is "hidden" (srctools.Leaf "selected" _)) with false.
  change (srctools.name_is "hidden" (srctools.Leaf "save_settings" _)) with false.
  cbn match.
  assert (forall key, srctools.name_is key (srctools.Leaf "hidden" "") = false ->
            List.filter (srctools.name_is key)
              (map hidden_leaf (elements (hidden_defaults r))) = []) as Hnone.
  { intros key Hkey. induction (elements (hidden_defaults r)) as [|u l IH]; [done|].
    cbn [map List.filter]. unfold hidden_leaf at 1.
    change (srctools.name_is key (srctools.Leaf "hidden" (uuid.hex u)))
      with (srctools.name_is key (srctools.Leaf "hidden" "")).
    by rewrite Hkey. }
  rewrite !Hnone by done. rewrite filter_hidden_leaves.
  split; [done|]. split; [apply hex_canonical|]. split; [by destruct (save_settings r)|].
  exists (elements (hidden_defaults r)).
  split; [apply NoDup_elements|].
  split; [intros u; apply elem_of_elements|].
  split; [done|]. split; [done|].
  apply Forall_forall. intros u _. apply hex_canonical.
Qed.

(** X11. The element written by [export_dmx] has exactly four attributes:
    [name], the string ["Palette"] that every new element holds, and
    [selected], [save_settings] and [hidden]: 16 bytes, a boolean, and an
    array with exactly one 16-byte item for each hidden identifier.  The
    items are the encodings of an enumeration without repetition of
    [hidden_defaults], so no identifier is written twice and none is left
    out. *)
Theorem export_dmx_format (r : PaletteState) :
  dom (dmx.members (export_dmx r))
  = {[ "name"; "selected"; "save_settings"; "hidden" ]}
  /\ dmx.getitem (export_dmx r) "name"
     = Ok (dmx.mkAttribute "name" (dmx.Scalar (dmx.VString "Palette")))
  /\ dmx.getitem (export_dmx r) "selected"
     = Ok (dmx.mkAttribute "selected" (dmx.Scalar (dmx.VBinary (uuid.bytes (selected r)))))
  /\ length (uuid.bytes (selected r)) = 16%nat
  /\ dmx.getitem (export_dmx r) "save_settings"
     = Ok (dmx.mkAttribute "save_settings" (dmx.Scalar (dmx.VBool (save_settings r))))
  /\ exists order : list UUID,
       NoDup order
       /\ (forall u, u ∈ order <-> u ∈ hidden_defaults r)
       /\ length order = size (hidden_defaults r)
       /\ dmx.getitem (export_dmx r) "hidden"
          = Ok (dmx.mkAttribute "hidden"
                  (dmx.Array (map (fun u => dmx.VBinary (uuid.bytes u)) order)))
       /\ Forall (fun u => length (uuid.bytes u) = 16%nat) order.
Proof.
  split.
  { rewrite export_dmx_members, !dom_insert_L, dom_singleton_L. set_solver. }
  split.
  { unfold dmx.getitem. rewrite export_dmx_members.
    change (Str.casefold "name") with "name".
    rewrite (lookup_insert_ne _ "hidden" "name") by done.
    rewrite (lookup_insert_ne _ "save_settings" "name") by done.
    rewrite (lookup_insert_ne _ "selected" "name") by done.
    by rewrite lookup_singleton_eq. }
  split; [apply getitem_export_dmx_selected|]. split; [apply bytes_length|].
  split; [apply getitem_export_dmx_save_settings|].
  exists (elements (hidden_defaults r)).
  split; [apply NoDup_elements|].
  split; [intros u; apply elem_of_elements|].
  split; [done|]. split; [apply getitem_export_dmx_hidden|].
  apply Forall_forall. intros u _. apply bytes_length.
Qed.

(** *** Children and attributes the parsers do not know *)

Lemma last_named_drop key ch1 p ch2 :
  srctools.name_is key p = false ->
  srctools.last_named key (ch1 ++ p :: ch2) = srctools.last_named key (ch1 ++ ch2).
Proof.
  intros H. unfold srctools.last_named. rewrite !rev_app_distr. cbn [rev].
  rewrite <- app_assoc, !find_app_or. cbn [app List.find]. by rewrite H.
Qed.

(** X12. A child whose name is none of [selected], [save_settings] and
    [hidden] does not change what [parse_kv1] returns or raises, wherever
    it stands in the block. *)
Theorem parse_kv1_ignores_foreign name ch1 p ch2 (version : Z) :
  foreign_child p ->
  parse_kv1 (srctools.Block name (ch1 ++ p :: ch2)) version
  = parse_kv1 (srctools.Block name (ch1 ++ ch2)) version.
Proof.
  intros Hp. unfold foreign_child, palette_keys in Hp.
  apply List.Forall_cons_iff in Hp as [Hsel Hp].
  apply List.Forall_cons_iff in Hp as [Hsav Hp].
  apply List.Forall_cons_iff in Hp as [Hhid _].
  unfold parse_kv1, kv1_hidden, kv1_selected, srctools.bool, srctools.getitem,
    srctools.find_all.
  rewrite !List.filter_app. cbn [List.filter]. rewrite Hhid.
  by rewrite !last_named_drop by done.
Qed.

(** X13. Setting an attribute whose name is none of [selected],
    [save_settings] and [hidden] does not change what [parse_dmx] returns
    or raises. *)
Theorem parse_dmx_ignores_foreign (data : dmx.Element) key v (version : Z) :
  foreign_name key ->
  parse_dmx (dmx.setitem data key v) version = parse_dmx data version.
Proof.
  intros Hk. unfold foreign_name, palette_keys in Hk.
  apply List.Forall_cons_iff in Hk as [Hsel Hk].
  apply List.Forall_cons_iff in Hk as [Hsav Hk].
  apply List.Forall_cons_iff in Hk as [Hhid _].
  unfold parse_dmx, dmx_selected.
  by rewrite (getitem_setitem_other _ key _ "selected"),
    (getitem_setitem_other _ key _ "hidden"),
    (getitem_setitem_other _ key _ "save_settings") by done.
Qed.

(** *** Adding a hidden entry to a text block *)

(** X14. If a text block parses to a record, the block with one more
    [hidden] entry for an identifier [u] parses to the same record with [u]
    added to the hidden set, unless [u] is the selected identifier or a
    force-shown one, in which case the record is unchanged. *)
Theorem parse_kv1_append_hidden (data : srctools.Property) (u : UUID) (r : PaletteState) :
  parse_kv1 data 1 = Ok r ->
  parse_kv1 (srctools.append data (srctools.Leaf "hidden" (uuid.hex u))) 1
  = Ok (mkPaletteState (selected r) (save_settings r)
          (hidden_defaults r ∪ ({[ u ]} ∖ {[ selected r ]} ∖ FORCE_SHOWN))).
Proof.
  intros H. destruct data as [n v|n ch]; [done|]. cbn [srctools.append].
  unfold parse_kv1 in *. cbn [Z.eqb Pos.eqb negb] in *.
  unfold kv1_hidden, kv1_selected, srctools.bool, srctools.getitem in *.
  cbn [srctools.find_all] in *. py_run in H.
  destruct (comprehension _ (List.filter _ ch)) as [ids|] eqn:Hids; [|done].
  py_run in H. do 2 step_bind H. injection H as <-.
  rewrite List.filter_app. cbn [List.filter].
  change (srctools.name_is "hidden" (srctools.Leaf "hidden" _)) with true. cbn match.
  rewrite !last_named_skip by by repeat constructor. py_run.
  rewrite (comprehension_snoc _ _ _ ids u Hids)
    by (cbn [srctools.value UUID_hex]; apply of_hex_hex).
  py_run. rewrite E, E0. py_run. cbn [selected save_settings hidden_defaults].
  f_equal. f_equal. rewrite list_to_set_app_L. simpl.
  apply set_eq. intros x. set_solver.
Qed.

(** *** The legacy migration keeps a valid selection *)

(** X15. When the legacy store holds the hexadecimal form of an identifier
    under [palette_uuid], [parse_legacy] migrates to a record that selects
    that identifier; when it holds a string that does not decode, the
    record selects the default identifier.  Either way nothing is hidden. *)
Theorem parse_legacy_selection (L : BEE2_config.ConfigFile) (conf : srctools.Property) :
  (forall u, BEE2_config.read L "Last_Selected" "palette_uuid" = Some (uuid.hex u) ->
     parse_legacy L conf
     = Ok {[ "" := mkPaletteState u
                     (BEE2_config.get_bool L "General" "palette_save_settings") ∅ ]})
  /\ (forall s e, BEE2_config.read L "Last_Selected" "palette_uuid" = Some s ->
        uuid.of_hex s = Raise e ->
        parse_legacy L conf
        = Ok {[ "" := mkPaletteState UUID_PORTAL2
                        (BEE2_config.get_bool L "General" "palette_save_settings") ∅ ]}).
Proof.
  split.
  - intros u H. unfold parse_legacy, BEE2_config.get_val at 1. rewrite H, of_hex_hex.
    reflexivity.
  - intros s e H He. unfold parse_legacy, BEE2_config.get_val at 1. rewrite H, He.
    apply of_hex_raises in He as ->. reflexivity.
Qed.

(** *** The last [selected] child wins *)

(** A block that ends in a well-formed [selected] child. *)
Lemma parse_kv1_selected_last n ch (u : UUID) :
  parse_kv1 (srctools.Block n (ch ++ [srctools.Leaf "selected" (uuid.hex u)])) 1
  = (hidden ← kv1_hidden (srctools.Block n ch);
     save ← srctools.bool (srctools.Block n ch) "save_settings" false;
     Ok (mkPaletteState u save (hidden ∖ {[ u ]} ∖ FORCE_SHOWN))).
Proof.
  unfold parse_kv1. cbn [Z.eqb Pos.eqb negb].
  assert (kv1_hidden (srctools.Block n (ch ++ [srctools.Leaf "selected" (uuid.hex u)]))
          = kv1_hidden (srctools.Block n ch)) as ->.
  { unfold kv1_hidden, srctools.find_all. rewrite List.filter_app. cbn [List.filter].
    change (srctools.name_is "hidden" (srctools.Leaf "selected" _)) with false.
    cbn match. by rewrite app_nil_r. }
  assert (kv1_selected (srctools.Block n (ch ++ [srctools.Leaf "selected" (uuid.hex u)]))
          = Ok u) as ->.
  { unfold kv1_selected, srctools.getitem. rewrite last_named_last by done.
    py_run. cbn [srctools.value UUID_hex]. apply of_hex_hex. }
  assert (srctools.bool (srctools.Block n (ch ++ [srctools.Leaf "selected" (uuid.hex u)]))
            "save_settings" false
          = srctools.bool (srctools.Block n ch) "save_settings" false) as ->.
  { unfold srctools.bool, srctools.getitem. rewrite last_named_skip; [done|].
    by repeat constructor. }
  destruct (kv1_hidden _); py_run; [|done]. by destruct (srctools.bool _ _ _).
Qed.

(** X16. If a text block parses to a record, the block with one more
    [selected] child for an identifier [u] parses to a record that selects
    [u], keeps the flag, and hides what was hidden before except [u]; the
    former selection may come back only if the block listed it as hidden. *)
Theorem parse_kv1_append_selected (data : srctools.Property) (u : UUID) (r : PaletteState) :
  parse_kv1 data 1 = Ok r ->
  exists r',
    parse_kv1 (srctools.append data (srctools.Leaf "selected" (uuid.hex u))) 1 = Ok r'
    /\ selected r' = u
    /\ save_settings r' = save_settings r
    /\ hidden_defaults r' ∖ {[ selected r ]} = hidden_defaults r ∖ {[ u ]}.
Proof.
  intros H. destruct data as [n v|n ch]; [done|]. cbn [srctools.append].
  rewrite parse_kv1_selected_last.
  unfold parse_kv1 in H. cbn [Z.eqb Pos.eqb negb] in H.
  do 3 step_bind H. injection H as <-.
  exists (mkPaletteState u a1 (a ∖ {[ u ]} ∖ FORCE_SHOWN)).
  split; [reflexivity|]. cbn [selected save_settings hidden_defaults].
  split; [reflexivity|]. split; [reflexivity|]. apply set_eq. intros x. set_solver.
Qed.

(** *** Inputs on which the parsers cannot fail *)

Lemma comprehension_all_ok {A B} (f : A -> result B) xs :
  List.Forall (fun x => exists y, f x = Ok y) xs -> exists ys, comprehension f xs = Ok ys.
Proof.
  induction 1 as [|x xs [y Hy] _ [ys IH]]; [by exists []|].
  exists (y :: ys). simpl. by rewrite Hy, IH.
Qed.

Lemma of_digits_bound base ds acc :
  0 < base -> 0 <= acc -> List.Forall (fun d => 0 <= d < base) ds ->
  0 <= Digits.of_digits base acc ds < (acc + 1) * base ^ Z.of_nat (length ds).
Proof.
  intros Hb Hacc H. revert acc Hacc.
  induction H as [|d ds Hd _ IH]; intros acc Hacc.
  - simpl. lia.
  - cbn [Digits.of_digits fold_left length].
    specialize (IH (acc * base + d) ltac:(nia)). unfold Digits.of_digits in IH.
    rewrite Nat2Z.inj_succ, Z.pow_succ_r by lia.
    assert (0 < base ^ Z.of_nat (length ds)) by (apply Z.pow_pos_nonneg; lia).
    nia.
Qed.

Lemma Z_of_byte_range b : 0 <= uuid.Z_of_byte b < 256.
Proof. unfold uuid.Z_of_byte. pose proof (Byte.to_N_bounded b). lia. Qed.

(** Every string of 16 bytes is the byte form of an identifier. *)
Lemma of_bytes_16 (b : list byte) :
  length b = 16%nat -> exists u, uuid.of_bytes b = Ok u.
Proof.
  intros Hlen. unfold uuid.of_bytes. rewrite Hlen. cbn [Nat.eqb negb].
  unfold uuid.of_int. destruct (decide _) as [Hr|Hr]; [by eexists|].
  destruct Hr. unfold uuid.in_range.
  pose proof (of_digits_bound 256 (map uuid.Z_of_byte b) 0) as H.
  rewrite length_map, Hlen in H. change ((0 + 1) * 256 ^ Z.of_nat 16) with (2 ^ 128) in H.
  apply H; [lia..|]. apply List.Forall_forall. intros d (x & <- & _)%List.in_map_iff.
  apply Z_of_byte_range.
Qed.

(** X17. On a flat text block (all children hold strings) whose [hidden]
    entries all decode, [parse_kv1] at version 1 returns a record, whatever
    the [selected] and [save_settings] children hold and whether they are
    there at all. *)
Theorem parse_kv1_flat_succeeds name (ch : list srctools.Property) :
  Forall is_leaf ch -> Forall hidden_decodes ch ->
  exists r, parse_kv1 (srctools.Block name ch) 1 = Ok r.
Proof.
  intros Hflat Hdec. unfold parse_kv1. cbn [Z.eqb Pos.eqb negb].
  unfold kv1_hidden. cbn [srctools.find_all]. py_run.
  destruct (comprehension_all_ok
              (fun prop => UUID_hex (srctools.value prop))
              (List.filter (srctools.name_is "hidden") ch)) as [ids ->].
  { apply List.Forall_forall. intros p [Hp Hn]%List.filter_In.
    pose proof (proj1 (List.Forall_forall _ _) Hdec p Hp Hn) as (n & v & u & -> & Hu).
    by exists u. }
  py_run.
  assert (forall key, exists v, srctools.getitem (srctools.Block name ch) key = Ok (srctools.VStr v)
                      \/ srctools.getitem (srctools.Block name ch) key = Raise NoKeyError)
    as Hget.
  { intros key. unfold srctools.getitem, srctools.last_named.
    destruct (List.find _ _) as [p|] eqn:Hp; [|by exists ""; right].
    apply List.find_some in Hp as [Hp%List.in_rev _].
    pose proof (proj1 (List.Forall_forall _ _) Hflat p Hp) as (n & v & ->).
    exists v. by left. }
  assert (exists uuid, try_except (kv1_selected (srctools.Block name ch))
                         catches_lookup_or_value (Ok UUID_PORTAL2) = Ok uuid) as [uuid ->].
  { unfold kv1_selected. destruct (Hget "selected") as [v [-> | ->]]; py_run.
    - cbn [UUID_hex]. destruct (uuid.of_hex v) as [u|e] eqn:Hv; py_run; [by eexists|].
      apply of_hex_raises in Hv as ->. by eexists.
    - by eexists. }
  py_run.
  assert (exists save, srctools.bool (srctools.Block name ch) "save_settings" false = Ok save)
    as [save ->].
  { unfold srctools.bool. destruct (Hget "save_settings") as [v [-> | ->]]; py_run.
    - cbn [srctools.lookup_bool]. destruct (srctools.BOOL_LOOKUP !! _); py_run; by eexists.
    - by eexists. }
  py_run. by eexists.
Qed.

(** X18. On a binary element of the expected types, [parse_dmx] returns a
    record whose flag is the boolean of [save_settings], at any version. *)
Theorem parse_dmx_typed_succeeds (data : dmx.Element) (version : Z) :
  typed_element data ->
  exists r, parse_dmx data version = Ok r
            /\ exists a, dmx.getitem data "save_settings" = Ok a
                         /\ dmx.attr_value a = dmx.Scalar (dmx.VBool (save_settings r)).
Proof.
  intros ((a & b & Ha & Hb) & Hhid & Hsel). unfold parse_dmx.
  assert (exists uuid, try_except (dmx_selected data)
                         catches_lookup_or_value (Ok UUID_PORTAL2) = Ok uuid) as [uuid ->].
  { unfold dmx_selected. destruct (dmx.getitem data "selected") as [a'|e] eqn:Hget.
    - py_run. unfold dmx.val_bytes.
      destruct (Hsel a' eq_refl) as [[vs ->] | [b' ->]]; py_run; [by eexists|].
      cbn [dmx.to_binary]. py_run.
      destruct (uuid.of_bytes b') as [u|e] eqn:Hu; py_run; [by eexists|].
      apply of_bytes_raises in Hu as ->. by eexists.
    - unfold dmx.getitem in Hget. destruct (dmx.members data !! _); [done|].
      injection Hget as <-. by eexists. }
  py_run.
  assert (exists hidden,
            match (a ← dmx.getitem data "hidden"; Ok (dmx.iter_bytes conv_binary a)) with
            | Ok hidden_arr =>
                hidden ← dmx_hidden hidden_arr;
                Ok (hidden ∖ {[ uuid ]} ∖ FORCE_SHOWN)
            | Raise e => if is_KeyError e then Ok ∅ else Raise e
            end = Ok hidden) as [hidden ->].
  { destruct (dmx.getitem data "hidden") as [a'|e] eqn:Hget.
    - py_run. destruct (Hhid a' eq_refl) as (vs & Hvs & H16).
      unfold dmx.iter_bytes, dmx_hidden. rewrite Hvs.
      destruct (comprehension_all_ok
                  (fun byt => b ← byt; uuid.of_bytes b)
                  (map (dmx.to_binary conv_binary) vs)) as [ids ->]; [|py_run; by eexists].
      apply List.Forall_forall. intros byt (v & <- & Hv)%List.in_map_iff.
      pose proof (proj1 (List.Forall_forall _ _) H16 v Hv) as (b' & -> & Hlen).
      cbn [dmx.to_binary]. py_run. by apply of_bytes_16.
    - unfold dmx.getitem in Hget. destruct (dmx.members data !! _); [done|].
      injection Hget as <-. py_run. by eexists. }
  py_run. rewrite Ha. py_run. unfold dmx.val_bool. rewrite Hb. cbn [dmx.to_bool]. py_run.
  eexists. split; [done|]. exists a. by split.
Qed.

(** *** What a returned record tells about the input *)

(** X19. [parse_kv1] returns a record only at version 1, only for a block,
    and only if every [hidden] child holds a string that decodes; the
    record's selection is the decoded [selected] child or the default
    identifier. *)
Theorem parse_kv1_ok_inv (data : srctools.Property) (version : Z) (r : PaletteState) :
  parse_kv1 data version = Ok r ->
  version = 1
  /\ (exists n ch, data = srctools.Block n ch /\ Forall hidden_decodes ch)
  /\ (kv1_selected data = Ok (selected r) \/ selected r = UUID_PORTAL2).
Proof.
  intros H. unfold parse_kv1 in H.
  destruct (version =? 1) eqn:Hv; [|done]. apply Z.eqb_eq in Hv. cbn [negb] in H.
  split; [done|].
  destruct data as [n v|n ch]; [done|].
  unfold kv1_hidden in H. cbn [srctools.find_all] in H. py_run in H.
  destruct (comprehension _ _) as [ids|] eqn:Hids; [|done]. py_run in H.
  split.
  - exists n, ch. split; [done|].
    apply comprehension_ok_all in Hids.
    apply List.Forall_forall. intros p Hp Hn.
    pose proof (proj1 (List.Forall_forall _ _) Hids p (In_filter_name _ _ _ Hp Hn))
      as [u Hu].
    destruct p as [pn pv|pn pch]; [|done]. by exists pn, pv, u.
  - unfold try_except in H.
    destruct (kv1_selected _) as [u|e]; py_run in H.
    + step_bind H. injection H as <-. by left.
    + destruct (catches_lookup_or_value e); [|done]. py_run in H.
      step_bind H. injection H as <-. by right.
Qed.

(** X20. [parse_dmx] returns a record only if the [save_settings]
    attribute is there and reads as the record's flag; the record's
    selection is the decoded [selected] attribute or the default
    identifier. *)
Theorem parse_dmx_ok_inv (data : dmx.Element) (version : Z) (r : PaletteState) :
  parse_dmx data version = Ok r ->
  (exists a, dmx.getitem data "save_settings" = Ok a
             /\ dmx.val_bool conv_bool a = Ok (save_settings r))
  /\ (dmx_selected data = Ok (selected r) \/ selected r = UUID_PORTAL2).
Proof.
  intros H. unfold parse_dmx in H. unfold try_except in H.
  destruct (dmx_selected data) as [u|e]; py_run in H.
  - do 3 step_bind H. injection H as <-. split; [by eexists|by left].
  - destruct (catches_lookup_or_value e); [|done]. py_run in H.
    do 3 step_bind H. injection H as <-. split; [by eexists|by right].
Qed.

End Palette.

(** * The statements at sample values *)

Lemma sample_ids_differ : Sample.id_a <> Sample.id_b /\ Sample.portal2 <> Sample.id_b.
Proof. split; discriminate. Qed.

Lemma well_formed_selected : selected_not_hidden Sample.well_formed.
Proof.
  unfold selected_not_hidden. simpl. apply not_elem_of_singleton.
  apply sample_ids_differ.
Qed.

Lemma well_formed_force_shown :
  force_shown_not_hidden Sample.force_shown Sample.well_formed.
Proof.
  intros u ->%elem_of_singleton. simpl. apply not_elem_of_singleton.
  apply sample_ids_differ.
Qed.

Lemma kv1_malformed_parsed :
  parse_kv1 Sample.portal2 Sample.force_shown Sample.kv1_malformed 1
  = Ok (mkPaletteState Sample.portal2 true ∅).
Proof. vm_compute. reflexivity. Qed.

Lemma dmx_malformed_parsed :
  parse_dmx Sample.portal2 Sample.force_shown Sample.no_conv Sample.no_conv
    Sample.dmx_malformed 1
  = Ok (mkPaletteState Sample.portal2 true ∅).
Proof. vm_compute. reflexivity. Qed.

Lemma kv1_malformed_bad : kv1_selected_bad Sample.kv1_malformed.
Proof. right. exists "not-an-identifier". split; reflexivity. Qed.

Lemma dmx_malformed_bad : dmx_selected_bad Sample.no_conv Sample.dmx_malformed.
Proof.
  right. eexists. split; [reflexivity|]. right. exists [x01; x02]. split; reflexivity.
Qed.

(** C1 at the record parsed from the malformed sample block. *)
Lemma ingested_invariants_witness :
  ingested Sample.portal2 Sample.force_shown Sample.no_conv Sample.no_conv
    (mkPaletteState Sample.portal2 true ∅)
  /\ selected_not_hidden (mkPaletteState Sample.portal2 true ∅)
  /\ force_shown_not_hidden Sample.force_shown (mkPaletteState Sample.portal2 true ∅).
Proof.
  assert (ingested Sample.portal2 Sample.force_shown Sample.no_conv Sample.no_conv
            (mkPaletteState Sample.portal2 true ∅)) as H.
  { eapply ingested_kv1. apply kv1_malformed_parsed. }
  split; [exact H|]. exact (ingested_invariants _ _ _ _ _ H).
Defined.

(** C2 fails as stated: a record that hides its own selection does not
    survive the text round trip. *)
Lemma kv1_roundtrip_drops_hidden_selection :
  parse_kv1 Sample.portal2 Sample.force_shown (export_kv1 Sample.hides_selected) 1
  <> Ok Sample.hides_selected.
Proof.
  rewrite parse_kv1_export. unfold filtered, Sample.hides_selected. simpl.
  intros H.
  apply (f_equal (fun m => match m with Ok r => hidden_defaults r | Raise _ => ∅ end)) in H.
  simpl in H. assert (Sample.id_a ∈ ({[ Sample.id_a ]} : gset UUID)) as Hin by set_solver.
  rewrite <- H in Hin. set_solver.
Qed.

(** C2, amended, at a record that satisfies the invariants. *)
Lemma parse_kv1_export_roundtrip_witness :
  selected_not_hidden Sample.well_formed
  /\ force_shown_not_hidden Sample.force_shown Sample.well_formed
  /\ parse_kv1 Sample.portal2 Sample.force_shown (export_kv1 Sample.well_formed) 1
     = Ok Sample.well_formed.
Proof.
  split; [exact well_formed_selected|]. split; [exact well_formed_force_shown|].
  exact (parse_kv1_export_roundtrip Sample.portal2 Sample.force_shown Sample.well_formed
           well_formed_selected well_formed_force_shown).
Defined.

(** C3 fails as stated: a record that hides its own selection does not
    survive the binary round trip. *)
Lemma dmx_roundtrip_drops_hidden_selection :
  parse_dmx Sample.portal2 Sample.force_shown Sample.no_conv Sample.no_conv
    (export_dmx Sample.hides_selected) 1
  <> Ok Sample.hides_selected.
Proof.
  rewrite parse_dmx_export. unfold filtered, Sample.hides_selected. simpl.
  intros H.
  apply (f_equal (fun m => match m with Ok r => hidden_defaults r | Raise _ => ∅ end)) in H.
  simpl in H. assert (Sample.id_a ∈ ({[ Sample.id_a ]} : gset UUID)) as Hin by set_solver.
  rewrite <- H in Hin. set_solver.
Qed.

(** C3, amended, at a record that satisfies the invariants. *)
Lemma parse_dmx_export_roundtrip_witness :
  selected_not_hidden Sample.well_formed
  /\ force_shown_not_hidden Sample.force_shown Sample.well_formed
  /\ parse_dmx Sample.portal2 Sample.force_shown Sample.no_conv Sample.no_conv
       (export_dmx Sample.well_formed) 1
     = Ok Sample.well_formed.
Proof.
  split; [exact well_formed_selected|]. split; [exact well_formed_force_shown|].
  exact (parse_dmx_export_roundtrip Sample.portal2 Sample.force_shown
           Sample.no_conv Sample.no_conv Sample.well_formed
           well_formed_selected well_formed_force_shown).
Defined.

(** C6 at a legacy store with an empty [palette_uuid] and no
    [palette_save_settings]. *)
Lemma parse_legacy_defaults_witness :
  BEE2_config.read Sample.legacy_empty_uuid "Last_Selected" "palette_uuid" = Some ""
  /\ BEE2_config.read Sample.legacy_empty_uuid "General" "palette_save_settings" = None
  /\ parse_legacy Sample.portal2 Sample.legacy_empty_uuid (srctools.Block "" [])
     = Ok {[ "" := PaletteState_default Sample.portal2 ]}.
Proof.
  split; [reflexivity|]. split; [reflexivity|].
  apply (proj2 (proj2 (parse_legacy_defaults Sample.portal2))); reflexivity.
Defined.

(** C7 at a text block and a binary element whose [selected] does not
    decode. *)
Lemma selected_fallback_witness :
  kv1_selected Sample.kv1_malformed = Raise ValueError
  /\ dmx_selected Sample.no_conv Sample.dmx_malformed = Raise ValueError
  /\ selected (mkPaletteState Sample.portal2 true ∅) = Sample.portal2
  /\ parse_dmx Sample.portal2 Sample.force_shown Sample.no_conv Sample.no_conv
       Sample.dmx_malformed 1
     = parse_dmx Sample.portal2 Sample.force_shown Sample.no_conv Sample.no_conv
         (dmx.setitem Sample.dmx_malformed "selected"
            (dmx.Scalar (dmx.VBinary (uuid.bytes Sample.portal2)))) 1.
Proof.
  split; [reflexivity|]. split; [reflexivity|].
  pose proof (selected_fallback Sample.portal2 Sample.force_shown
                Sample.no_conv Sample.no_conv) as [Hkv1 Hdmx].
  split.
  - exact (proj2 (Hkv1 Sample.kv1_malformed ValueError eq_refl) _ kv1_malformed_parsed).
  - exact (proj1 (Hdmx Sample.dmx_malformed ValueError eq_refl eq_refl)).
Defined.

(** C7 fails as stated: the binary parser surfaces the error of a
    [selected] attribute that holds an integer too large to be packed. *)
Lemma selected_conversion_error_surfaces :
  parse_dmx Sample.portal2 Sample.force_shown Sample.pack_int32 Sample.no_conv
    Sample.dmx_integer_selected 1
  = Raise StructError.
Proof. reflexivity. Qed.

(** A block-valued [selected] is passed over by the lookup, so the text
    parser takes the default. *)
Lemma kv1_block_selected_parsed :
  parse_kv1 Sample.portal2 Sample.force_shown Sample.kv1_block_selected 1
  = Ok (mkPaletteState Sample.portal2 true ∅).
Proof. vm_compute. reflexivity. Qed.

(** C9 fails as stated: the constructor builds a record that hides its own
    selection. *)
Lemma constructed_record_hides_selection :
  ~ selected_not_hidden (mkPaletteState Sample.id_a false {[ Sample.id_a ]}).
Proof. unfold selected_not_hidden. simpl. set_solver. Qed.

(** C9, amended, at the malformed sample inputs. *)
Lemma removal_only_in_parsers_witness :
  parse_kv1 Sample.portal2 Sample.force_shown Sample.kv1_malformed 1
  = Ok (mkPaletteState Sample.portal2 true ∅)
  /\ (exists h, kv1_hidden Sample.kv1_malformed = Ok h
               /\ (∅ : gset UUID) = h ∖ {[ Sample.portal2 ]} ∖ Sample.force_shown)
  /\ parse_dmx Sample.portal2 Sample.force_shown Sample.no_conv Sample.no_conv
       Sample.dmx_malformed 1
     = Ok (mkPaletteState Sample.portal2 true ∅)
  /\ dmx.getitem Sample.dmx_malformed "hidden" = Raise KeyError.
Proof.
  pose proof (removal_only_in_parsers Sample.portal2 Sample.force_shown
                Sample.no_conv Sample.no_conv) as (_ & Hkv1 & Hdmx).
  split; [exact kv1_malformed_parsed|].
  split; [exact (Hkv1 _ _ _ kv1_malformed_parsed)|].
  split; [exact dmx_malformed_parsed|].
  destruct (Hdmx _ _ _ dmx_malformed_parsed) as [[H _] | (a & h & H & _)].
  - exact H.
  - discriminate H.
Defined.

(** * The further properties at sample values *)

(** X3 at the record parsed from the malformed sample block. *)
Lemma ingested_reload_stable_witness :
  ingested Sample.portal2 Sample.force_shown Sample.no_conv Sample.no_conv
    (mkPaletteState Sample.portal2 true ∅)
  /\ parse_kv1 Sample.portal2 Sample.force_shown
       (export_kv1 (mkPaletteState Sample.portal2 true ∅)) 1
     = Ok (mkPaletteState Sample.portal2 true ∅)
  /\ parse_dmx Sample.portal2 Sample.force_shown Sample.no_conv Sample.no_conv
       (export_dmx (mkPaletteState Sample.portal2 true ∅)) 1
     = Ok (mkPaletteState Sample.portal2 true ∅).
Proof.
  assert (ingested Sample.portal2 Sample.force_shown Sample.no_conv Sample.no_conv
            (mkPaletteState Sample.portal2 true ∅)) as H.
  { eapply ingested_kv1. apply kv1_malformed_parsed. }
  destruct (ingested_reload_stable _ _ _ _ _ H) as [Hkv1 Hdmx].
  split; [exact H|]. split; [exact Hkv1|]. exact (Hdmx 1).
Defined.

(** X4 at the reversed iteration order. *)
Lemma kv1_roundtrip_any_order_witness :
  reverse (elements (hidden_defaults sample_two_hidden))
    ≡ₚ elements (hidden_defaults sample_two_hidden)
  /\ parse_kv1 Sample.portal2 Sample.force_shown
       (export_kv1_in (reverse (elements (hidden_defaults sample_two_hidden)))
          sample_two_hidden) 1
     = Ok (filtered Sample.force_shown sample_two_hidden).
Proof.
  split; [apply reverse_Permutation|].
  exact (proj2 (kv1_roundtrip_any_order Sample.portal2 Sample.force_shown
                  sample_two_hidden _ (reverse_Permutation _))).
Defined.

(** X5 at the reversed iteration order. *)
Lemma dmx_roundtrip_any_order_witness :
  reverse (elements (hidden_defaults sample_two_hidden))
    ≡ₚ elements (hidden_defaults sample_two_hidden)
  /\ parse_dmx Sample.portal2 Sample.force_shown Sample.no_conv Sample.no_conv
       (export_dmx_in (reverse (elements (hidden_defaults sample_two_hidden)))
          sample_two_hidden) 1
     = Ok (filtered Sample.force_shown sample_two_hidden).
Proof.
  split; [apply reverse_Permutation|].
  exact (proj2 (dmx_roundtrip_any_order Sample.portal2 Sample.force_shown
                  Sample.no_conv Sample.no_conv sample_two_hidden _ 1
                  (reverse_Permutation _))).
Defined.

Lemma sample_bad_hidden_leaves : hidden_are_leaves sample_bad_hidden.
Proof. repeat constructor; intros _; by eexists _, _. Qed.

Lemma sample_bad_hidden_malformed : Exists malformed_hidden sample_bad_hidden.
Proof.
  apply Exists_cons_tl, Exists_cons_tl, Exists_cons_hd.
  split; [reflexivity|]. by exists "hidden", "0123".
Qed.

(** X6 at a block with a four-digit hidden entry. *)
Lemma parse_kv1_malformed_hidden_witness :
  hidden_are_leaves sample_bad_hidden
  /\ Exists malformed_hidden sample_bad_hidden
  /\ parse_kv1 Sample.portal2 Sample.force_shown
       (srctools.Block "Palette" sample_bad_hidden) 1
     = Raise ValueError.
Proof.
  split; [exact sample_bad_hidden_leaves|]. split; [exact sample_bad_hidden_malformed|].
  exact (parse_kv1_malformed_hidden Sample.portal2 Sample.force_shown "Palette" _
           sample_bad_hidden_leaves sample_bad_hidden_malformed).
Defined.

(** X7 at an element with a two-byte hidden item. *)
Lemma parse_dmx_malformed_hidden_witness :
  dmx.getitem sample_bad_hidden_dmx "hidden"
  = Ok (dmx.mkAttribute "hidden" (dmx.Array [dmx.VBinary [x01; x02]]))
  /\ exists e,
       parse_dmx Sample.portal2 Sample.force_shown Sample.no_conv Sample.no_conv
         sample_bad_hidden_dmx 1
       = Raise e.
Proof.
  split; [reflexivity|].
  apply (parse_dmx_malformed_hidden Sample.portal2 Sample.force_shown
           Sample.no_conv Sample.no_conv sample_bad_hidden_dmx 1
           (dmx.mkAttribute "hidden" (dmx.Array [dmx.VBinary [x01; x02]]))
           [dmx.VBinary [x01; x02]] [x01; x02]).
  - reflexivity.
  - reflexivity.
  - simpl. by left.
  - simpl. lia.
Defined.

(** X8 at one record. *)
Lemma export_kv1_injective_witness :
  export_kv1 Sample.well_formed = export_kv1 Sample.well_formed
  /\ Sample.well_formed = Sample.well_formed.
Proof.
  split; [reflexivity|].
  exact (export_kv1_injective Sample.well_formed Sample.well_formed eq_refl).
Defined.

(** X9 at one record. *)
Lemma export_dmx_injective_witness :
  export_dmx Sample.well_formed = export_dmx Sample.well_formed
  /\ Sample.well_formed = Sample.well_formed.
Proof.
  split; [reflexivity|].
  exact (export_dmx_injective Sample.well_formed Sample.well_formed eq_refl).
Defined.

Lemma sample_comment_foreign : foreign_child sample_comment.
Proof. by repeat constructor. Qed.

(** X12 at a comment put in front of the malformed sample block. *)
Lemma parse_kv1_ignores_foreign_witness :
  foreign_child sample_comment
  /\ parse_kv1 Sample.portal2 Sample.force_shown
       (srctools.Block "Palette"
          ([] ++ sample_comment
              :: [ srctools.Leaf "selected" "not-an-identifier";
                   srctools.Leaf "save_settings" "1" ])) 1
     = parse_kv1 Sample.portal2 Sample.force_shown
         (srctools.Block "Palette"
            ([] ++ [ srctools.Leaf "selected" "not-an-identifier";
                     srctools.Leaf "save_settings" "1" ])) 1.
Proof.
  split; [exact sample_comment_foreign|].
  exact (parse_kv1_ignores_foreign Sample.portal2 Sample.force_shown "Palette" [] _ _ 1
           sample_comment_foreign).
Defined.

Lemma comment_foreign_name : foreign_name "Comment".
Proof. by repeat constructor. Qed.

(** X13 at a comment attribute added to the malformed sample element. *)
Lemma parse_dmx_ignores_foreign_witness :
  foreign_name "Comment"
  /\ parse_dmx Sample.portal2 Sample.force_shown Sample.no_conv Sample.no_conv
       (dmx.setitem Sample.dmx_malformed "Comment" (dmx.Scalar (dmx.VString "x"))) 1
     = parse_dmx Sample.portal2 Sample.force_shown Sample.no_conv Sample.no_conv
         Sample.dmx_malformed 1.
Proof.
  split; [exact comment_foreign_name|].
  exact (parse_dmx_ignores_foreign Sample.portal2 Sample.force_shown
           Sample.no_conv Sample.no_conv Sample.dmx_malformed "Comment" _ 1
           comment_foreign_name).
Defined.

(** X14 at the malformed sample block. *)
Lemma parse_kv1_append_hidden_witness :
  parse_kv1 Sample.portal2 Sample.force_shown Sample.kv1_malformed 1
  = Ok (mkPaletteState Sample.portal2 true ∅)
  /\ parse_kv1 Sample.portal2 Sample.force_shown
       (srctools.append Sample.kv1_malformed
          (srctools.Leaf "hidden" (uuid.hex Sample.id_b))) 1
     = Ok (mkPaletteState Sample.portal2 true
             (∅ ∪ ({[ Sample.id_b ]} ∖ {[ Sample.portal2 ]} ∖ Sample.force_shown))).
Proof.
  split; [exact kv1_malformed_parsed|].
  exact (parse_kv1_append_hidden Sample.portal2 Sample.force_shown
           Sample.kv1_malformed Sample.id_b _ kv1_malformed_parsed).
Defined.

(** X15 at a store with a valid and at one with an undecodable identifier. *)
Lemma parse_legacy_selection_witness :
  BEE2_config.read sample_legacy_valid "Last_Selected" "palette_uuid"
  = Some (uuid.hex Sample.id_a)
  /\ parse_legacy Sample.portal2 sample_legacy_valid (srctools.Block "" [])
     = Ok {[ "" := mkPaletteState Sample.id_a
                     (BEE2_config.get_bool sample_legacy_valid "General"
                        "palette_save_settings") ∅ ]}
  /\ BEE2_config.read sample_legacy_junk "Last_Selected" "palette_uuid" = Some "zz"
  /\ uuid.of_hex "zz" = Raise ValueError
  /\ parse_legacy Sample.portal2 sample_legacy_junk (srctools.Block "" [])
     = Ok {[ "" := mkPaletteState Sample.portal2
                     (BEE2_config.get_bool sample_legacy_junk "General"
                        "palette_save_settings") ∅ ]}.
Proof.
  pose proof (parse_legacy_selection Sample.portal2 sample_legacy_valid
                (srctools.Block "" [])) as [Hvalid _].
  pose proof (parse_legacy_selection Sample.portal2 sample_legacy_junk
                (srctools.Block "" [])) as [_ Hjunk].
  split; [reflexivity|]. split; [exact (Hvalid Sample.id_a eq_refl)|].
  split; [reflexivity|]. split; [reflexivity|].
  exact (Hjunk "zz" ValueError eq_refl eq_refl).
Defined.

(** X16 at the malformed sample block. *)
Lemma parse_kv1_append_selected_witness :
  parse_kv1 Sample.portal2 Sample.force_shown Sample.kv1_malformed 1
  = Ok (mkPaletteState Sample.portal2 true ∅)
  /\ exists r',
       parse_kv1 Sample.portal2 Sample.force_shown
         (srctools.append Sample.kv1_malformed
            (srctools.Leaf "selected" (uuid.hex Sample.id_a))) 1
       = Ok r'
       /\ selected r' = Sample.id_a.
Proof.
  split; [exact kv1_malformed_parsed|].
  destruct (parse_kv1_append_selected Sample.portal2 Sample.force_shown
              Sample.kv1_malformed Sample.id_a _ kv1_malformed_parsed)
    as (r' & Hr' & Hsel & _).
  exists r'. split; [exact Hr' | exact Hsel].
Defined.

Lemma sample_flat_leaves : Forall is_leaf sample_flat.
Proof. repeat constructor; by eexists _, _. Qed.

Lemma sample_flat_decodes : Forall hidden_decodes sample_flat.
Proof.
  repeat constructor; intros H; try discriminate H.
  eexists _, _, Sample.id_b. split; [reflexivity|]. apply of_hex_hex.
Qed.

(** X17 at a flat block with an unreadable selection and flag. *)
Lemma parse_kv1_flat_succeeds_witness :
  Forall is_leaf sample_flat
  /\ Forall hidden_decodes sample_flat
  /\ exists r,
       parse_kv1 Sample.portal2 Sample.force_shown (srctools.Block "Palette" sample_flat) 1
       = Ok r.
Proof.
  split; [exact sample_flat_leaves|]. split; [exact sample_flat_decodes|].
  exact (parse_kv1_flat_succeeds Sample.portal2 Sample.force_shown "Palette" _
           sample_flat_leaves sample_flat_decodes).
Defined.

Lemma sample_typed : typed_element (palette_without_hidden Sample.id_a true).
Proof.
  split; [|split].
  - by eexists _, true.
  - intros a H. discriminate H.
  - intros a [= <-]. right. by eexists.
Qed.

(** X18 at an element without a hidden array. *)
Lemma parse_dmx_typed_succeeds_witness :
  typed_element (palette_without_hidden Sample.id_a true)
  /\ exists r,
       parse_dmx Sample.portal2 Sample.force_shown Sample.no_conv Sample.no_conv
         (palette_without_hidden Sample.id_a true) 1
       = Ok r.
Proof.
  split; [exact sample_typed|].
  destruct (parse_dmx_typed_succeeds Sample.portal2 Sample.force_shown
              Sample.no_conv Sample.no_conv _ 1 sample_typed) as (r & Hr & _).
  exists r. exact Hr.
Defined.

(** X19 at the malformed sample block. *)
Lemma parse_kv1_ok_inv_witness :
  parse_kv1 Sample.portal2 Sample.force_shown Sample.kv1_malformed 1
  = Ok (mkPaletteState Sample.portal2 true ∅)
  /\ (1 = 1)%Z
  /\ exists n ch, Sample.kv1_malformed = srctools.Block n ch /\ Forall hidden_decodes ch.
Proof.
  split; [exact kv1_malformed_parsed|].
  destruct (parse_kv1_ok_inv Sample.portal2 Sample.force_shown
              Sample.kv1_malformed 1 _ kv1_malformed_parsed) as (Hv & Hch & _).
  split; [exact Hv | exact Hch].
Defined.

(** X20 at the malformed sample element. *)
Lemma parse_dmx_ok_inv_witness :
  parse_dmx Sample.portal2 Sample.force_shown Sample.no_conv Sample.no_conv
    Sample.dmx_malformed 1
  = Ok (mkPaletteState Sample.portal2 true ∅)
  /\ exists a, dmx.getitem Sample.dmx_malformed "save_settings" = Ok a
               /\ dmx.val_bool Sample.no_conv a = Ok true.
Proof.
  split; [exact dmx_malformed_parsed|].
  exact (proj1 (parse_dmx_ok_inv Sample.portal2 Sample.force_shown
                  Sample.no_conv Sample.no_conv Sample.dmx_malformed 1 _
                  dmx_malformed_parsed)).
Defined.
